(** * Soundscape tile server ([Docker/gentiles.py]): metrics, tile encoding,
      request handling and coordinate math.

    The development is a shallow embedding of [gentiles.py].

    - Python numbers handed to the metrics code are modelled as exact
      rationals ([Q]).  This is exact for the integer-valued [tile_size]
      histogram (an [int / int] true division followed by [math.trunc] is the
      truncated quotient for operands below 2^53) and idealises the binary64
      arithmetic of a histogram with a fractional width such as
      [tile_querytime], where a quotient like [3.4 / 0.2] rounds to the next
      integer.  What is stated about the bucket of a sample is therefore
      stated at zero, on bucket boundaries, or for histograms of integers.
    - The route parameters are the digit strings of the path; [int] refuses
      a text of more than 4300 digits (CPython's default limit).
    - Python [str] values are sequences of Unicode code points ([list N]); the
      text produced by [json.dumps] is pure ASCII and is a Rocq [string].
    - Exceptions are values of [PyExn]; code that mutates the module-level
      metrics and may raise is written in a state-and-exception monad over
      [World].
    - The connection pool, the cursor and the clock are external; what they
      answer during one request is collected in a record [Env].  The rows
      the store returns carry values of the types [json.dumps] accepts.
    - The float arithmetic of the coordinate conversions is kept abstract
      (class [Binary64]); float literals are written [float_of_int n]. *)

From Stdlib Require Import ZArith NArith QArith Qround Bool List Lia Lqa.
From Stdlib Require Import Ascii String DecimalString.
From Stdlib Require Import Permutation Sorted.
From Stdlib Require DecimalPos DecimalZ.
From Stdlib Require PrimFloat SpecFloat FloatOps.
Import ListNotations.

Local Open Scope Z_scope.

(* ================================================================== *)
(** * Exceptions and outcomes *)

(** The exception classes that matter to the handlers.  [OtherException]
    stands for any [Exception] subclass that is neither a [psycopg2.Error]
    nor an aiohttp [HTTPException]; [CancelledError] derives from
    [BaseException] only. *)
Inductive PyExn : Type :=
| Psycopg2Error
| ValueError
| OverflowError
| IndexError
| ZeroDivisionError
| OtherException
| CancelledError
| HTTPNotFound
| HTTPServiceUnavailable
| HTTPInternalServerError.

(** [isinstance(e, Exception)] *)
Definition is_Exception (e : PyExn) : bool :=
  match e with
  | CancelledError => false
  | _ => true
  end.

(** [isinstance(e, psycopg2.Error)] *)
Definition is_psycopg2_Error (e : PyExn) : bool :=
  match e with
  | Psycopg2Error => true
  | _ => false
  end.

(** [isinstance(e, web.HTTPException)] *)
Definition is_HTTPException (e : PyExn) : bool :=
  match e with
  | HTTPNotFound | HTTPServiceUnavailable | HTTPInternalServerError => true
  | _ => false
  end.

(** Outcome of running a piece of Python code: a value or a raised
    exception. *)
Inductive Outcome (A : Type) : Type :=
| Return (a : A)
| Raise (e : PyExn).
Arguments Return {A} a.
Arguments Raise {A} e.

(* ================================================================== *)
(** * Metrics: [StatCounter] and [StatHistogram] *)

Record StatCounter : Type := mkCounter {
  c_name : string;
  c_help : string;
  c_value : Z
}.

Definition StatCounter_init (name help : string) : StatCounter :=
  mkCounter name help 0.

(** [StatCounter.inc] *)
Definition inc (c : StatCounter) : StatCounter :=
  mkCounter (c_name c) (c_help c) (c_value c + 1).

Record StatHistogram : Type := mkHistogram {
  h_name : string;
  h_help : string;
  h_sum : Q;
  h_interval : Q;
  h_buckets : list Z;
  h_count : Z;
  h_bucket_count : Z;
  h_max_value : Q
}.

(** [[0] * bucket_count] is the empty list for a negative count. *)
Definition StatHistogram_init (name help : string) (interval : Q)
    (bucket_count : Z) : StatHistogram :=
  mkHistogram name help 0 interval
    (repeat 0 (Z.to_nat bucket_count)) 0 bucket_count
    (inject_Z bucket_count * interval).

(** [math.trunc]: rounding toward zero. *)
Definition py_trunc (q : Q) : Z := Z.quot (Qnum q) (Zpos (Qden q)).

(** Position designated by a Python list index on a list of length [len]:
    negative indices count from the end, anything outside
    [-len .. len-1] raises [IndexError]. *)
Definition py_index (len idx : Z) : option nat :=
  if (0 <=? idx) && (idx <? len) then Some (Z.to_nat idx)
  else if (- len <=? idx) && (idx <? 0) then Some (Z.to_nat (len + idx))
  else None.

Fixpoint set_nth {A : Type} (n : nat) (x : A) (l : list A) : list A :=
  match l, n with
  | [], _ => []
  | _ :: t, O => x :: t
  | a :: t, S m => a :: set_nth m x t
  end.

(** [self.buckets[index] += 1] *)
Definition bump_bucket (buckets : list Z) (index : Z) : option (list Z) :=
  match py_index (Z.of_nat (List.length buckets)) index with
  | Some n => Some (set_nth n (nth n buckets 0 + 1) buckets)
  | None => None
  end.

(** [StatHistogram.sample].  The histogram is returned together with the
    outcome: [count] and [sum] are updated before anything can raise. *)
Definition sample (h : StatHistogram) (value : Q)
    : StatHistogram * Outcome unit :=
  let h1 := mkHistogram (h_name h) (h_help h) (h_sum h + value)
              (h_interval h) (h_buckets h) (h_count h + 1)
              (h_bucket_count h) (h_max_value h) in
  if Qle_bool value (h_max_value h1) then
    if Qeq_bool (h_interval h1) 0 then (h1, Raise ZeroDivisionError)
    else
      let index := py_trunc (value / h_interval h1) in
      let index :=
        if Qeq_bool (inject_Z index * h_interval h1) value
        then index - 1 else index in
      match bump_bucket (h_buckets h1) index with
      | Some buckets' =>
          (mkHistogram (h_name h1) (h_help h1) (h_sum h1) (h_interval h1)
             buckets' (h_count h1) (h_bucket_count h1) (h_max_value h1),
           Return tt)
      | None => (h1, Raise IndexError)
      end
  else (h1, Return tt).

(** A histogram as [__init__] builds it and [sample] keeps it. *)
Definition histogram_wf (h : StatHistogram) : Prop :=
  0 <= h_bucket_count h /\
  Z.of_nat (List.length (h_buckets h)) = h_bucket_count h /\
  h_max_value h = (inject_Z (h_bucket_count h) * h_interval h)%Q.

(** Count held by bucket [i] (0-indexed). *)
Definition bucket (h : StatHistogram) (i : Z) : Z :=
  nth (Z.to_nat i) (h_buckets h) 0.

(** The bucket a sample belongs to according to the exposition labels:
    bucket [i] holds the samples [v] with [i*interval < v <= (i+1)*interval]. *)
Definition in_bucket (interval : Q) (i : Z) (v : Q) : Prop :=
  (inject_Z i * interval < v /\ v <= inject_Z (i + 1) * interval)%Q.

(** The histogram [sample] leaves behind when it bumps bucket [i]. *)
Definition sampled_into (h : StatHistogram) (value : Q) (i : nat)
    : StatHistogram :=
  mkHistogram (h_name h) (h_help h) (h_sum h + value)%Q (h_interval h)
    (set_nth i (nth i (h_buckets h) 0 + 1) (h_buckets h))
    (h_count h + 1) (h_bucket_count h) (h_max_value h).

(** The histogram [sample] leaves behind when it bumps no bucket. *)
Definition sampled_outside (h : StatHistogram) (value : Q)
    : StatHistogram :=
  mkHistogram (h_name h) (h_help h) (h_sum h + value)%Q (h_interval h)
    (h_buckets h) (h_count h + 1) (h_bucket_count h) (h_max_value h).

Definition tile_querytime_0 : StatHistogram :=
  StatHistogram_init "tile_querytime_seconds"
    "histogram of tile query performance" (1 # 5) 20.

Definition tile_size_0 : StatHistogram :=
  StatHistogram_init "tile_size" "histogram of tile size" (inject_Z (1024 * 8)) 32.

(* ================================================================== *)
(** * Canonical JSON: [json.dumps(obj, sort_keys=True)] *)

(** A Python [str]: its code points. *)
Definition pystr : Type := list N.

Definition pystr_of_string (s : string) : pystr :=
  map N_of_ascii (list_ascii_of_string s).

(** The values [json.dumps] accepts.  A float is carried as the text the
    encoder prints for it ([float.__repr__], or [NaN] / [Infinity]); a
    [dict] is its list of items in insertion order, its keys pairwise
    distinct. *)
#[local] Set Warnings "-register-all".
Inductive json : Type :=
| JNull
| JBool (b : bool)
| JInt (z : Z)
| JFloat (text : string)
| JStr (s : pystr)
| JList (l : list json)
| JDict (d : list (pystr * json)).

(** Comparison of two [str]: lexicographic on code points. *)
Fixpoint pystr_compare (a b : pystr) : comparison :=
  match a, b with
  | [], [] => Eq
  | [], _ :: _ => Lt
  | _ :: _, [] => Gt
  | x :: a', y :: b' =>
      match N.compare x y with
      | Eq => pystr_compare a' b'
      | c => c
      end
  end.

Definition pystr_leb (a b : pystr) : bool :=
  match pystr_compare a b with
  | Gt => false
  | _ => true
  end.

Section SortItems.
Context {V : Type}.

Fixpoint insert_item (kv : pystr * V) (l : list (pystr * V))
    : list (pystr * V) :=
  match l with
  | [] => [kv]
  | h :: t =>
      if pystr_leb (fst kv) (fst h) then kv :: l
      else h :: insert_item kv t
  end.

(** [sorted(dct.items())]: the keys of a dict are distinct, so the order
    of the items is the order of their keys. *)
Fixpoint sort_items (l : list (pystr * V)) : list (pystr * V) :=
  match l with
  | [] => []
  | h :: t => insert_item h (sort_items t)
  end.
End SortItems.

(** Strict order of two items by key. *)
Definition key_lt {V : Type} (p q : pystr * V) : Prop :=
  pystr_compare (fst p) (fst q) = Lt.

Local Open Scope string_scope.

(** The double quote and the control characters with a short escape. *)
Definition dquote : string := String "034"%char EmptyString.
Definition backslash : string := "\".

Definition hex_digit (d : N) : ascii :=
  match d with
  | 0%N => "0" | 1%N => "1" | 2%N => "2" | 3%N => "3"
  | 4%N => "4" | 5%N => "5" | 6%N => "6" | 7%N => "7"
  | 8%N => "8" | 9%N => "9" | 10%N => "a" | 11%N => "b"
  | 12%N => "c" | 13%N => "d" | 14%N => "e" | _ => "f"
  end%char.

(** ['\\u{0:04x}'.format(n)] for [n < 0x10000]. *)
Definition escape_u (n : N) : string :=
  backslash ++ "u" ++
  String (hex_digit (N.shiftr n 12 mod 16))
    (String (hex_digit (N.shiftr n 8 mod 16))
       (String (hex_digit (N.shiftr n 4 mod 16))
          (String (hex_digit (n mod 16)) EmptyString))).

(** The replacement [py_encode_basestring_ascii] makes for one code point:
    printable ASCII other than the quote and the backslash is kept, the
    rest is escaped, code points beyond the BMP as a surrogate pair. *)
Definition escape_char (n : N) : string :=
  if (n =? 92)%N then backslash ++ backslash
  else if (n =? 34)%N then backslash ++ dquote
  else if (n =? 8)%N then backslash ++ "b"
  else if (n =? 12)%N then backslash ++ "f"
  else if (n =? 10)%N then backslash ++ "n"
  else if (n =? 13)%N then backslash ++ "r"
  else if (n =? 9)%N then backslash ++ "t"
  else if ((32 <=? n) && (n <=? 126))%N
       then String (ascii_of_N n) EmptyString
  else if (n <? 65536)%N then escape_u n
  else
    let m := (n - 65536)%N in
    let s1 := N.lor 55296 (N.land (N.shiftr m 10) 1023) in
    let s2 := N.lor 56320 (N.land m 1023) in
    escape_u s1 ++ escape_u s2.

Definition py_encode_basestring_ascii (s : pystr) : string :=
  dquote ++ String.concat "" (map escape_char s) ++ dquote.

(** [int.__repr__] *)
Definition int_repr (z : Z) : string :=
  NilZero.string_of_int (Z.to_int z).

(** One [key: value] member of an object, the value already encoded. *)
Definition member (kv : pystr * string) : string :=
  py_encode_basestring_ascii (fst kv) ++ ": " ++ snd kv.

(** [json.dumps(obj, sort_keys=True)] with the default separators.  The
    members of an object are ordered by key; the values are encoded before
    the members are ordered, which changes nothing since the order only
    looks at the keys. *)
Fixpoint json_dumps (j : json) : string :=
  match j with
  | JNull => "null"
  | JBool true => "true"
  | JBool false => "false"
  | JInt z => int_repr z
  | JFloat text => text
  | JStr s => py_encode_basestring_ascii s
  | JList l => "[" ++ String.concat ", " (map json_dumps l) ++ "]"
  | JDict d =>
      "{" ++
      String.concat ", "
        (map member
           (sort_items
              (map (fun kv => match kv with
                              | (k, v) => (k, json_dumps v)
                              end) d))) ++
      "}"
  end.

(** A row of a [NamedTupleCursor]: field names and values in column order. *)
Definition Row : Type := list (pystr * json).

(** [x._asdict()] *)
Definition asdict (x : Row) : json := JDict x.

(** The object [gentile_async] builds from the fetched rows. *)
Definition tile_object (value : list Row) : json :=
  JDict [ (pystr_of_string "type",
           JStr (pystr_of_string "FeatureCollection"));
          (pystr_of_string "features", JList (map asdict value)) ].

(** The tile text: [json.dumps(obj, sort_keys=True)]. *)
Definition encode_tile (value : list Row) : string :=
  json_dumps (tile_object value).

(** The document of an empty result. *)
Definition empty_tile : string :=
  "{" ++ dquote ++ "features" ++ dquote ++ ": [], " ++
  dquote ++ "type" ++ dquote ++ ": " ++
  dquote ++ "FeatureCollection" ++ dquote ++ "}".

Local Close Scope string_scope.

(** Two rows with the same fields: the same row, or rows whose distinctly
    named fields were inserted in a different order. *)
Definition same_fields (r1 r2 : Row) : Prop :=
  r1 = r2 \/ (NoDup (map fst r1) /\ Permutation r1 r2).

(* ================================================================== *)
(** * The module state and the request monad *)

(** The module-level metrics. *)
Record Metrics : Type := mkMetrics {
  tilesrv_metrics_scraped : StatCounter;
  tilesrv_aliveprobe : StatCounter;
  tilesrv_start : StatCounter;
  tile_served : StatCounter;
  tile_exception : StatCounter;
  tile_queryfail : StatCounter;
  tile_querytime : StatHistogram;
  tile_size : StatHistogram
}.

Definition metrics_0 : Metrics :=
  mkMetrics
    (StatCounter_init "tilesrv_metrics_scraped" "count of times scraped")
    (StatCounter_init "tilesrv_aliveprobe_count"
       "count of times probe for aliveness")
    (StatCounter_init "tilesrv_start_count"
       "count of times tile server started")
    (StatCounter_init "tile_served_count" "count of tiles served")
    (StatCounter_init "tile_exception_count"
       "count of tiles requests that ended in exception")
    (StatCounter_init "tile_queryfail_count"
       "count of tiles requests that experienced query failure")
    tile_querytime_0
    tile_size_0.

(** A statement handed to [cursor.execute]. *)
Inductive Statement : Type :=
| timeout_set
| tile_query (zoom tile_x tile_y : N).

(** What a request can change: the metrics, and the statements the store
    has been sent (most recent first). *)
Record World : Type := mkWorld {
  metrics : Metrics;
  issued : list Statement
}.

Definition world_0 : World := mkWorld metrics_0 [].

(** Code that reads and writes the [World] and returns or raises. *)
Definition M (A : Type) : Type := World -> World * Outcome A.

Definition ret {A : Type} (a : A) : M A := fun w => (w, Return a).

Definition raise {A : Type} (e : PyExn) : M A := fun w => (w, Raise e).

Definition bind {A B : Type} (m : M A) (k : A -> M B) : M B :=
  fun w =>
    match m w with
    | (w', Return a) => k a w'
    | (w', Raise e) => (w', Raise e)
    end.

Declare Scope py_scope.
Delimit Scope py_scope with py.
Notation "x <- m ;; k" := (bind m (fun x => k))
  (at level 61, m at next level, right associativity) : py_scope.
Notation "m ;; k" := (bind m (fun _ => k))
  (at level 61, right associativity) : py_scope.
Local Open Scope py_scope.

(** [try: body  except <class> as e: handler(e)]: the handler runs on the
    exceptions the clause matches, the others propagate. *)
Definition try_except {A : Type} (body : M A) (matches : PyExn -> bool)
    (handler : PyExn -> M A) : M A :=
  fun w =>
    match body w with
    | (w', Return a) => (w', Return a)
    | (w', Raise e) => if matches e then handler e w' else (w', Raise e)
    end.

Definition update_metrics (f : Metrics -> Metrics) : M unit :=
  fun w => (mkWorld (f (metrics w)) (issued w), Return tt).

Definition inc_tile_served (m : Metrics) : Metrics :=
  mkMetrics (tilesrv_metrics_scraped m) (tilesrv_aliveprobe m)
    (tilesrv_start m) (inc (tile_served m)) (tile_exception m)
    (tile_queryfail m) (tile_querytime m) (tile_size m).

Definition inc_tile_exception (m : Metrics) : Metrics :=
  mkMetrics (tilesrv_metrics_scraped m) (tilesrv_aliveprobe m)
    (tilesrv_start m) (tile_served m) (inc (tile_exception m))
    (tile_queryfail m) (tile_querytime m) (tile_size m).

Definition inc_tile_queryfail (m : Metrics) : Metrics :=
  mkMetrics (tilesrv_metrics_scraped m) (tilesrv_aliveprobe m)
    (tilesrv_start m) (tile_served m) (tile_exception m)
    (inc (tile_queryfail m)) (tile_querytime m) (tile_size m).

Definition set_tile_querytime (h : StatHistogram) (m : Metrics) : Metrics :=
  mkMetrics (tilesrv_metrics_scraped m) (tilesrv_aliveprobe m)
    (tilesrv_start m) (tile_served m) (tile_exception m)
    (tile_queryfail m) h (tile_size m).

Definition set_tile_size (h : StatHistogram) (m : Metrics) : Metrics :=
  mkMetrics (tilesrv_metrics_scraped m) (tilesrv_aliveprobe m)
    (tilesrv_start m) (tile_served m) (tile_exception m)
    (tile_queryfail m) (tile_querytime m) h.

(** [tile_querytime.sample(value)] on the module-level histogram. *)
Definition tile_querytime_sample (value : Q) : M unit :=
  fun w =>
    let (h, out) := sample (tile_querytime (metrics w)) value in
    (mkWorld (set_tile_querytime h (metrics w)) (issued w), out).

(** [tile_size.sample(value)] on the module-level histogram. *)
Definition tile_size_sample (value : Q) : M unit :=
  fun w =>
    let (h, out) := sample (tile_size (metrics w)) value in
    (mkWorld (set_tile_size h (metrics w)) (issued w), out).

(* ================================================================== *)
(** * The store, as one request sees it *)

(** What the pool, the connection and the cursor can raise: a
    [psycopg2.Error], some other [Exception], or a cancellation. *)
Inductive StoreExn : Type :=
| store_psycopg2_Error
| store_other_Exception
| store_CancelledError.

Definition exn_of_store (e : StoreExn) : PyExn :=
  match e with
  | store_psycopg2_Error => Psycopg2Error
  | store_other_Exception => OtherException
  | store_CancelledError => CancelledError
  end.

(** The answer of an awaited call on an external collaborator. *)
Inductive Answer (A : Type) : Type :=
| Ok (a : A)
| Fails (e : StoreExn).
Arguments Ok {A} a.
Arguments Fails {A} e.

(** What the external collaborators answer during one request.  [elapsed]
    is the difference of the two [time.perf_counter()] readings around the
    query. *)
Record Env : Type := mkEnv {
  pool_acquire : Answer unit;
  conn_cursor : Answer unit;
  execute_timeout_set : Answer unit;
  execute_tile_query : Answer unit;
  fetchall : Answer (list Row);
  elapsed : Q
}.

(** [await <call>] *)
Definition await {A : Type} (answer : Answer A) : M A :=
  fun w =>
    match answer with
    | Ok a => (w, Return a)
    | Fails e => (w, Raise (exn_of_store e))
    end.

(** The statement reaches the store. *)
Definition send (stmt : Statement) : M unit :=
  fun w => (mkWorld (metrics w) (stmt :: issued w), Return tt).

(** [await cursor.execute(stmt)] *)
Definition cursor_execute (stmt : Statement) (answer : Answer unit)
    : M unit :=
  send stmt ;; await answer.

(** [await cursor.fetchall()] *)
Definition cursor_fetchall (env : Env) : M (list Row) :=
  await (fetchall env).

(** [async with <resource>: body]: the body runs once the resource is
    obtained. *)
Definition async_with {A : Type} (resource : Answer unit) (body : M A)
    : M A :=
  await resource ;; body.

(* ================================================================== *)
(** * Tile generation and the handlers *)

Definition zoom_default : N := 16.

(** What [gentile_async] can hand back to its caller. *)
Inductive PyVal : Type :=
| PyNone
| PyStr (s : string).

(** [len(tile)] as a number. *)
Definition len (s : string) : Q := inject_Z (Z.of_nat (String.length s)).

Definition when (b : bool) (m : M unit) : M unit :=
  if b then m else ret tt.

(** [gentile_async(cursor, zoom, x, y, gather_metrics)].  The [except
    psycopg2.Error] clause prints the error and raises it again.  [zoom]
    is the value of [int(zoom)]: the one caller passes a text it has
    already converted, so the conversion inside cannot raise. *)
Definition gentile_async (env : Env) (zoom x y : N) (gather_metrics : bool)
    : M PyVal :=
  try_except
    (cursor_execute timeout_set (execute_timeout_set env) ;;
     cursor_execute (tile_query zoom x y) (execute_tile_query env) ;;
     value <- cursor_fetchall env ;;
     when gather_metrics (tile_querytime_sample (elapsed env)) ;;
     let tile := encode_tile value in
     when gather_metrics (tile_size_sample (len tile)) ;;
     ret (PyStr tile))
    is_psycopg2_Error
    (fun e => raise e).

(** [sys.get_int_max_str_digits()] at its default: [int] refuses a text
    of more decimal digits (CPython 3.11 and later). *)
Definition int_max_str_digits : nat := 4300.

(** [int(s)] for a text [s] of decimal digits, leading zeros included:
    [ValueError] on the empty text and on more than [int_max_str_digits]
    digits. *)
Definition py_int (s : Decimal.uint) : Outcome N :=
  match s with
  | Decimal.Nil => Raise ValueError
  | _ =>
      if (int_max_str_digits <? Decimal.nb_digits s)%nat
      then Raise ValueError
      else Return (N.of_uint s)
  end.

(** A request matched by the route [/{zoom:\d+}/{x:\d+}/{y:\d+}.json]:
    [request.match_info] holds the three parameters as the digit strings
    of the path. *)
Record Request : Type := mkRequest {
  req_zoom : Decimal.uint;
  req_x : Decimal.uint;
  req_y : Decimal.uint
}.

(** An outcome that leaves the world as it is. *)
Definition lift {A : Type} (o : Outcome A) : M A := fun w => (w, o).

Record Response : Type := mkResponse {
  status : Z;
  text : string;
  content_type : string
}.

(** [tile_handler_on_conn(conn, request)].  [gentile_async] is handed
    the zoom text and takes [int(zoom)] once more; here it is handed the
    value the handler has just obtained from the same text. *)
Definition tile_handler_on_conn (env : Env) (request : Request)
    : M Response :=
  async_with (conn_cursor env)
    (let zoom := req_zoom request in
     int_zoom <- lift (py_int zoom) ;;
     if negb (int_zoom =? zoom_default)%N then raise HTTPNotFound
     else
       x <- lift (py_int (req_x request)) ;;
       y <- lift (py_int (req_y request)) ;;
       tile_data <- gentile_async env int_zoom x y true ;;
       match tile_data with
       | PyNone =>
           update_metrics inc_tile_queryfail ;;
           raise HTTPServiceUnavailable
       | PyStr s =>
           update_metrics inc_tile_served ;;
           ret (mkResponse 200 s "application/json")
       end).

(** [tile_handler_pooling(request)]: [connection_pooling] is [True], so
    this is the [tile_handler] of the route. *)
Definition tile_handler_pooling (env : Env) (request : Request)
    : M Response :=
  try_except
    (async_with (pool_acquire env) (tile_handler_on_conn env request))
    is_Exception
    (fun e => update_metrics inc_tile_exception ;; raise e).

Definition tile_handler := tile_handler_pooling.

(** [error_middleware(request, handler)]: an [HTTPException] passes, the
    bare [except] turns anything else into [HTTPInternalServerError]. *)
Definition error_middleware {A : Type} (handler : M A) : M A :=
  try_except handler (fun e => negb (is_HTTPException e))
    (fun _ => raise HTTPInternalServerError).

(** Status code aiohttp answers with for a raised [HTTPException]. *)
Definition status_code (e : PyExn) : Z :=
  match e with
  | HTTPNotFound => 404
  | HTTPServiceUnavailable => 503
  | _ => 500
  end.

(** Status of the HTTP response a handler outcome becomes. *)
Definition response_status (out : Outcome Response) : Z :=
  match out with
  | Return r => status r
  | Raise e => status_code e
  end.

(** [GET /{zoom}/{x}/{y}.json] through the application's middleware. *)
Definition serve_tile (env : Env) (request : Request) : M Response :=
  error_middleware (tile_handler env request).

(* ================================================================== *)
(** * Coordinate math *)

(** The binary64 arithmetic and the [math] functions the conversions use.
    The operations that can raise ([ZeroDivisionError], [OverflowError],
    [ValueError]) return an [Outcome]. *)
Class Binary64 : Type := {
  float : Type;
  float_of_int : Z -> float;
  math_pi : float;
  fadd : float -> float -> float;
  fsub : float -> float -> float;
  fmul : float -> float -> float;
  fdiv : float -> float -> Outcome float;
  fpow : float -> Z -> Outcome float;
  math_radians : float -> float;
  math_degrees : float -> float;
  math_log : float -> Outcome float;
  math_tan : float -> Outcome float;
  math_cos : float -> Outcome float;
  math_atan : float -> float;
  math_sinh : float -> Outcome float;
  int_of_float : float -> Outcome Z
}.

Definition and_then {A B : Type} (o : Outcome A) (k : A -> Outcome B)
    : Outcome B :=
  match o with
  | Return a => k a
  | Raise e => Raise e
  end.

Notation "'do' x <- o ; k" := (and_then o (fun x => k))
  (at level 10, x pattern, o at level 99, k at level 200).

(** The value an evaluation yields, if it yields one. *)
Definition returned {A : Type} (o : Outcome A) : option A :=
  match o with
  | Return a => Some a
  | Raise _ => None
  end.

Section CoordinateMath.
Context `{Binary64}.

(** [osm_deg2num(lat_deg, lon_deg, zoom)] *)
Definition osm_deg2num (lat_deg lon_deg : float) (zoom : Z)
    : Outcome (Z * Z) :=
  let lat_rad := math_radians lat_deg in
  do n <- fpow (float_of_int 2) zoom;
  do fx <- fdiv (fadd lon_deg (float_of_int 180)) (float_of_int 360);
  do xtile <- int_of_float (fmul fx n);
  do t <- math_tan lat_rad;
  do c <- math_cos lat_rad;
  do sec <- fdiv (float_of_int 1) c;
  do l <- math_log (fadd t sec);
  do q <- fdiv l math_pi;
  do fy <- fdiv (fsub (float_of_int 1) q) (float_of_int 2);
  do ytile <- int_of_float (fmul fy n);
  Return (xtile, ytile).

(** [num2deg(xtile, ytile, zoom)]: the north-west corner of the tile. *)
Definition num2deg (xtile ytile : float) (zoom : Z)
    : Outcome (float * float) :=
  do n <- fpow (float_of_int 2) zoom;
  do fx <- fdiv xtile n;
  let lon_deg := fsub (fmul fx (float_of_int 360)) (float_of_int 180) in
  do fy <- fdiv (fmul (float_of_int 2) ytile) n;
  do s <- math_sinh (fmul math_pi (fsub (float_of_int 1) fy));
  let lat_rad := math_atan s in
  let lat_deg := math_degrees lat_rad in
  Return (lat_deg, lon_deg).

(** [tile_bbox_from_coords(zoom, coord_bbox)]; [by_] is the source's
    [by]. *)
Definition tile_bbox_from_coords (zoom : Z)
    (coord_bbox : float * float * float * float)
    : Outcome (Z * Z * Z * Z) :=
  let '(c0, c1, c2, c3) := coord_bbox in
  do (ax, ay) <- osm_deg2num c0 c1 zoom;
  do (bx, by_) <- osm_deg2num c2 c3 zoom;
  let tile_minx := Z.min ax bx in
  let tile_maxx := Z.max ax bx in
  let tile_miny := Z.min ay by_ in
  let tile_maxy := Z.max ay by_ in
  Return (tile_minx, tile_miny, tile_maxx, tile_maxy).
End CoordinateMath.

(* ================================================================== *)
(** * The float interface over binary64 *)

(** The functions of the C library the conversions call: [math.log],
    [math.tan], [math.cos] and [math.sinh] can raise. *)
Record Libm : Type := mkLibm {
  libm_log : PrimFloat.float -> Outcome PrimFloat.float;
  libm_tan : PrimFloat.float -> Outcome PrimFloat.float;
  libm_cos : PrimFloat.float -> Outcome PrimFloat.float;
  libm_sinh : PrimFloat.float -> Outcome PrimFloat.float;
  libm_atan : PrimFloat.float -> PrimFloat.float
}.

(** The float nearest to an integer (ties to even), as Python converts
    an [int] operand of a float operation; the integers of the statements
    below are far inside the range of the floats. *)
Definition float_of_Z (z : Z) : PrimFloat.float :=
  FloatOps.SF2Prim
    (SpecFloat.binary_normalize FloatOps.prec FloatOps.emax z 0 false).

(** [math.pi] *)
Definition float_pi : PrimFloat.float :=
  FloatOps.SF2Prim (SpecFloat.S754_finite false 7074237752028440 (-51)).

(** [a / b] on floats: [ZeroDivisionError] on a zero divisor. *)
Definition float_div (a b : PrimFloat.float) : Outcome PrimFloat.float :=
  if PrimFloat.eqb b PrimFloat.zero then Raise ZeroDivisionError
  else Return (PrimFloat.div a b).

(** [a ** n] for an integer [n], by repeated multiplication, which is
    exact for the base [2.0] the conversions use; [OverflowError] when a
    finite base gives an infinite power. *)
Definition float_pow (a : PrimFloat.float) (n : Z)
    : Outcome PrimFloat.float :=
  let r :=
    if 0 <=? n
    then Z.iter n (fun r => PrimFloat.mul r a) PrimFloat.one
    else Z.iter (- n)
           (fun r => PrimFloat.mul r (PrimFloat.div PrimFloat.one a))
           PrimFloat.one in
  if PrimFloat.is_infinity r && negb (PrimFloat.is_infinity a)
  then Raise OverflowError
  else Return r.

(** [int(f)]: truncation toward zero; [ValueError] on a NaN and
    [OverflowError] on an infinity. *)
Definition float_to_int (f : PrimFloat.float) : Outcome Z :=
  match FloatOps.Prim2SF f with
  | SpecFloat.S754_zero _ => Return 0
  | SpecFloat.S754_infinity _ => Raise OverflowError
  | SpecFloat.S754_nan => Raise ValueError
  | SpecFloat.S754_finite s m e =>
      let magnitude :=
        if 0 <=? e then Z.pos m * 2 ^ e else Z.pos m / 2 ^ (- e) in
      Return (if s then - magnitude else magnitude)
  end.

(** Binary64 arithmetic with the functions of [m]; [math.radians] and
    [math.degrees] multiply by [pi / 180.0] and by [180.0 / pi]. *)
Definition binary64 (m : Libm) : Binary64 :=
  Build_Binary64 PrimFloat.float float_of_Z float_pi
    PrimFloat.add PrimFloat.sub PrimFloat.mul float_div float_pow
    (fun x => PrimFloat.mul x (PrimFloat.div float_pi (float_of_Z 180)))
    (fun x => PrimFloat.mul x (PrimFloat.div (float_of_Z 180) float_pi))
    (libm_log m) (libm_tan m) (libm_cos m) (libm_atan m) (libm_sinh m)
    float_to_int.

(** The longitude [-3.1915283203125004], one float west of the west edge
    of tile column 32187 at zoom 16, and that edge. *)
Definition lon_west_of_32187 : PrimFloat.float :=
  FloatOps.SF2Prim (SpecFloat.S754_finite true 7186682877050881 (-51)).

Definition west_edge_32187 : PrimFloat.float :=
  FloatOps.SF2Prim (SpecFloat.S754_finite true 7186682877050880 (-51)).

(** A library that is exact at the arguments the equator needs:
    [tan 0 = 0], [cos 0 = 1], [log 1 = 0], [sinh 0 = 0], [atan 0 = 0]. *)
Definition libm_exact_at_origin (m : Libm) : Prop :=
  libm_tan m (float_of_Z 0) = Return (float_of_Z 0) /\
  libm_cos m (float_of_Z 0) = Return (float_of_Z 1) /\
  libm_log m (float_of_Z 1) = Return (float_of_Z 0) /\
  libm_sinh m (float_of_Z 0) = Return (float_of_Z 0) /\
  libm_atan m (float_of_Z 0) = float_of_Z 0.

(** The first-order expansions around those arguments. *)
Definition libm_first_order : Libm :=
  mkLibm (fun x => Return (PrimFloat.sub x (float_of_Z 1)))
    (fun x => Return x)
    (fun _ => Return (float_of_Z 1))
    (fun x => Return x)
    (fun x => x).

(** A histogram of integers, as [tile_size] is: the width is an integer
    and the maximum is below 2^53, so that the quotient
    [value / interval], which the code takes in binary64, truncates to the
    exact quotient of two integers. *)
Definition integer_histogram (h : StatHistogram) : Prop :=
  (exists width : Z, h_interval h = inject_Z width) /\
  (h_max_value h < inject_Z (2 ^ 53))%Q.

(** A non-negative integer sample. *)
Definition integer_sample (v : Q) : Prop :=
  exists n : Z, 0 <= n /\ v = inject_Z n.

(** A zoom text of 4301 digits, which [int] refuses. *)
Definition oversized_text : Decimal.uint :=
  Nat.iter 4301 Decimal.D9 Decimal.Nil.

(* ================================================================== *)
(** * Vocabulary of the statements below *)

(** The six counters, in registration order. *)
Definition counters (m : Metrics) : list StatCounter :=
  [ tilesrv_metrics_scraped m; tilesrv_aliveprobe m; tilesrv_start m;
    tile_served m; tile_exception m; tile_queryfail m ].

(** A histogram that [sample] can always file a non-negative value in. *)
Definition histogram_usable (h : StatHistogram) : Prop :=
  histogram_wf h /\ (0 < h_interval h)%Q /\ 1 <= h_bucket_count h.

Definition metrics_usable (m : Metrics) : Prop :=
  histogram_usable (tile_querytime m) /\ histogram_usable (tile_size m).

(** The request is for the supported zoom: [int(zoom)] is 16. *)
Definition supported_zoom (request : Request) : Prop :=
  py_int (req_zoom request) = Return zoom_default.

(** [int(...)] of the two tile coordinates gives [x] and [y]. *)
Definition coordinates (request : Request) (x y : N) : Prop :=
  py_int (req_x request) = Return x /\ py_int (req_y request) = Return y.

(** The connection and its cursor are obtained. *)
Definition connected (env : Env) : Prop :=
  pool_acquire env = Ok tt /\ conn_cursor env = Ok tt.

(** The store raises a [psycopg2.Error] while [gentile_async] runs the
    query: at the timeout statement, at the tile query, or at the fetch. *)
Definition query_raises_psycopg2 (env : Env) : Prop :=
  execute_timeout_set env = Fails store_psycopg2_Error \/
  (execute_timeout_set env = Ok tt /\
   execute_tile_query env = Fails store_psycopg2_Error) \/
  (execute_timeout_set env = Ok tt /\ execute_tile_query env = Ok tt /\
   fetchall env = Fails store_psycopg2_Error).

(** The store runs the query and returns [rows]. *)
Definition store_returns (env : Env) (rows : list Row) : Prop :=
  execute_timeout_set env = Ok tt /\ execute_tile_query env = Ok tt /\
  fetchall env = Ok rows.

(** Concrete requests and store behaviours. *)
Definition env_rows (rows : list Row) : Env :=
  mkEnv (Ok tt) (Ok tt) (Ok tt) (Ok tt) (Ok rows) (1 # 10).

Definition env_query_fails : Env :=
  mkEnv (Ok tt) (Ok tt) (Ok tt) (Fails store_psycopg2_Error) (Ok [])
    (1 # 10).

Definition env_cancelled : Env :=
  mkEnv (Ok tt) (Ok tt) (Ok tt) (Fails store_CancelledError) (Ok [])
    (1 # 10).

Definition request_16_100_200 : Request :=
  mkRequest (N.to_uint 16) (N.to_uint 100) (N.to_uint 200).
Definition request_15_0_0 : Request := mkRequest (N.to_uint 15) (N.to_uint 0) (N.to_uint 0).

Definition rows_id_name : list Row :=
  [ [ (pystr_of_string "id", JInt 1);
      (pystr_of_string "name", JStr (pystr_of_string "A")) ] ].

Definition rows_name_id : list Row :=
  [ [ (pystr_of_string "name", JStr (pystr_of_string "A"));
      (pystr_of_string "id", JInt 1) ] ].

(* ================================================================== *)
(** * The other routes, the exposition text and sequences of calls *)

(** The histogram after a sequence of [sample] calls, each call made
    whether or not an earlier one raised. *)
Definition sample_all (h : StatHistogram) (values : list Q)
    : StatHistogram :=
  fold_left (fun h v => fst (sample h v)) values h.

(** Sum of a list of numbers, and of the bucket counts. *)
Definition Qsum (values : list Q) : Q := fold_right Qplus 0%Q values.
Definition bucket_total (h : StatHistogram) : Z :=
  fold_right Z.add 0 (h_buckets h).

(** Number of values [sample] looks a bucket up for. *)
Definition within_max (h : StatHistogram) (values : list Q) : Z :=
  Z.of_nat (List.length
              (filter (fun v => Qle_bool v (h_max_value h)) values)).

Local Open Scope string_scope.

Definition newline : string := String "010"%char EmptyString.

(** [StatCounter.report] *)
Definition StatCounter_report (c : StatCounter) : string :=
  "# HELP " ++ c_name c ++ " " ++ c_help c ++ newline ++
  "# TYPE " ++ c_name c ++ " counter" ++ newline ++
  c_name c ++ " " ++ int_repr (c_value c) ++ newline.

(** [tile_name(zoom, x, y)] on integers. *)
Definition tile_name (zoom x y : Z) : string :=
  int_repr zoom ++ "/" ++ int_repr x ++ "/" ++ int_repr y ++ ".json".

Section Exposition.
(** The text [str.format] prints for a Python number (an [int] or a
    [float]); the counts, which are always [int], are printed by
    [int_repr]. *)
Variable number_str : Q -> string.

(** [bucket_f.format(name, le, count)] *)
Definition bucket_line (name le : string) (count : Z) : string :=
  name ++ "_bucket{le=" ++ dquote ++ le ++ dquote ++ "} " ++
  int_repr count ++ newline.

(** The bucket lines of [StatHistogram.report], for [i] in
    [range(first, first + n)]: [self.buckets[i]] raises [IndexError]
    past the end of the list. *)
Fixpoint bucket_lines (h : StatHistogram) (first n : nat)
    : Outcome string :=
  match n with
  | O => Return ""
  | S n' =>
      match nth_error (h_buckets h) first with
      | None => Raise IndexError
      | Some count =>
          match bucket_lines h (S first) n' with
          | Return rest =>
              Return
                (bucket_line (h_name h)
                   (number_str
                      (inject_Z (Z.of_nat first + 1) * h_interval h)%Q)
                   count ++ rest)
          | Raise e => Raise e
          end
      end
  end.

(** [StatHistogram.report] *)
Definition StatHistogram_report (h : StatHistogram) : Outcome string :=
  let header :=
    "# HELP " ++ h_name h ++ " " ++ h_help h ++ newline ++
    "# TYPE " ++ h_name h ++ " histogram" ++ newline in
  match bucket_lines h 0 (Z.to_nat (h_bucket_count h)) with
  | Raise e => Raise e
  | Return buckets =>
      let total := bucket_line (h_name h) "+Inf" (h_count h) in
      let sum := h_name h ++ "_sum " ++ number_str (h_sum h) ++ newline in
      let count := h_name h ++ "_count " ++ int_repr (h_count h) ++ newline in
      Return (header ++ buckets ++ total ++ sum ++ count)
  end.

(** [metrics_to_string(m)]: the reports of the registered metrics, in
    registration order. *)
Definition metrics_to_string (m : Metrics) : Outcome string :=
  match StatHistogram_report (tile_querytime m) with
  | Raise e => Raise e
  | Return querytime =>
      match StatHistogram_report (tile_size m) with
      | Raise e => Raise e
      | Return size =>
          Return
            (StatCounter_report (tilesrv_metrics_scraped m) ++
             StatCounter_report (tilesrv_aliveprobe m) ++
             StatCounter_report (tilesrv_start m) ++
             StatCounter_report (tile_served m) ++
             StatCounter_report (tile_exception m) ++
             StatCounter_report (tile_queryfail m) ++
             querytime ++ size)
      end
  end.

Definition inc_tilesrv_metrics_scraped (m : Metrics) : Metrics :=
  mkMetrics (inc (tilesrv_metrics_scraped m)) (tilesrv_aliveprobe m)
    (tilesrv_start m) (tile_served m) (tile_exception m)
    (tile_queryfail m) (tile_querytime m) (tile_size m).

Definition inc_tilesrv_aliveprobe (m : Metrics) : Metrics :=
  mkMetrics (tilesrv_metrics_scraped m) (inc (tilesrv_aliveprobe m))
    (tilesrv_start m) (tile_served m) (tile_exception m)
    (tile_queryfail m) (tile_querytime m) (tile_size m).

(** [alive_handler(request)]: [web.Response()] is an empty 200. *)
Definition alive_handler : M Response :=
  (update_metrics inc_tilesrv_aliveprobe ;;
   ret (mkResponse 200 "" "application/octet-stream"))%py.

(** [metrics_handler(request)]: the scrape is counted, then the text is
    built from the metrics as they are. *)
Definition metrics_handler : M Response :=
  (update_metrics inc_tilesrv_metrics_scraped ;;
   fun w =>
     match metrics_to_string (metrics w) with
     | Return text => (w, Return (mkResponse 200 text "text/plain"))
     | Raise e => (w, Raise e)
     end)%py.

(** The three routes of the application. *)
Inductive Route : Type :=
| route_tile (request : Request)
| route_alive
| route_metrics.

(** One request through [error_middleware]; [env] is what the store
    answers while it is handled. *)
Definition handle (env : Env) (route : Route) : M Response :=
  error_middleware
    match route with
    | route_tile request => tile_handler env request
    | route_alive => alive_handler
    | route_metrics => metrics_handler
    end.

(** The state after a sequence of requests. *)
Fixpoint serve_all (requests : list (Env * Route)) (w : World) : World :=
  match requests with
  | [] => w
  | (env, route) :: rest => serve_all rest (fst (handle env route w))
  end.
End Exposition.

Local Close Scope string_scope.

(** A histogram without buckets, and a short session. *)
Definition no_bucket_histogram : StatHistogram :=
  StatHistogram_init "h" "no bucket" 1 0.

Definition session : list (Env * Route) :=
  [ (env_rows [], route_tile (mkRequest (N.to_uint 16) (N.to_uint 100) (N.to_uint 200)));
    (env_rows [], route_alive);
    (env_query_fails, route_tile (mkRequest (N.to_uint 16) (N.to_uint 100) (N.to_uint 201)));
    (env_rows [], route_tile (mkRequest (N.to_uint 15) (N.to_uint 0) (N.to_uint 0)));
    (env_rows [], route_metrics) ].

(** A character, and a text, free of the separators of a tile name. *)
Definition numeric_char (c : ascii) : Prop :=
  c <> "/"%char /\ c <> "."%char.

Fixpoint numeric (s : string) : Prop :=
  match s with
  | EmptyString => True
  | String c s' => numeric_char c /\ numeric s'
  end.

(** The world once [tile_handler_pooling] has counted an exception, and
    once [tile_handler_on_conn] has counted a served tile. *)
Definition exception_counted (w : World) : World :=
  mkWorld (inc_tile_exception (metrics w)) (issued w).

Definition served_counted (w : World) : World :=
  mkWorld (inc_tile_served (metrics w)) (issued w).

(** How the tile route ends when [e] escapes [tile_handler_on_conn] in
    world [w]: counted if it is an [Exception], answered as it is if it is
    an HTTP exception and as a 500 otherwise. *)
Definition escaped (e : PyExn) (w : World) : World * Outcome Response :=
  (if is_Exception e then exception_counted w else w,
   Raise (if is_HTTPException e then e else HTTPInternalServerError)).

(** No counter of [m'] is behind its value in [m]. *)
Definition metrics_le (m m' : Metrics) : Prop :=
  Forall2 (fun c c' =>
             c_name c' = c_name c /\ c_help c' = c_help c /\
             c_value c <= c_value c')
          (counters m) (counters m').

(** The statements sent so far obey the query protocol (most recent
    first): a tile query is for the supported zoom and comes right after
    the statement that sets the timeout. *)
Fixpoint protocol_ok (log : list Statement) : Prop :=
  match log with
  | [] => True
  | timeout_set :: earlier => protocol_ok earlier
  | tile_query zoom _ _ :: earlier =>
      zoom = zoom_default /\
      match earlier with
      | timeout_set :: _ => protocol_ok earlier
      | _ => False
      end
  end.

(** None of the store's answers is a cancellation. *)
Definition not_cancelled {A : Type} (a : Answer A) : Prop :=
  a <> Fails store_CancelledError.

Definition no_cancellation (env : Env) : Prop :=
  not_cancelled (pool_acquire env) /\ not_cancelled (conn_cursor env) /\
  not_cancelled (execute_timeout_set env) /\
  not_cancelled (execute_tile_query env) /\ not_cancelled (fetchall env).

(** The store raises [e] at one of the three steps of the query. *)
Definition query_raises (env : Env) (e : StoreExn) : Prop :=
  execute_timeout_set env = Fails e \/
  (execute_timeout_set env = Ok tt /\ execute_tile_query env = Fails e) \/
  (execute_timeout_set env = Ok tt /\ execute_tile_query env = Ok tt /\
   fetchall env = Fails e).

(** The served tiles and the size samples go together, and no size is
    sampled without a query time. *)
Definition metrics_consistent (m : Metrics) : Prop :=
  metrics_usable m /\
  c_value (tile_served m) = h_count (tile_size m) /\
  h_count (tile_size m) <= h_count (tile_querytime m).

(* ################################################################## *)
(** * Properties of the metrics *)

Section HistogramFacts.
Local Open Scope Q_scope.

Lemma py_trunc_floor (q : Q) : 0 <= q -> py_trunc q = Qfloor q.
Proof.
  intros Hq. unfold py_trunc, Qfloor. destruct q as [n d]. simpl.
  apply Z.quot_div_nonneg; [| reflexivity].
  unfold Qle in Hq. simpl in Hq. lia.
Qed.

(** The truncated quotient brackets the sample. *)
Lemma py_trunc_bracket (iv v : Q) :
  0 < iv -> 0 <= v ->
  (0 <= py_trunc (v / iv))%Z /\
  inject_Z (py_trunc (v / iv)) * iv <= v /\
  v < inject_Z (py_trunc (v / iv) + 1) * iv.
Proof.
  intros Hiv Hv.
  assert (Hq : 0 <= v / iv) by (apply Qle_shift_div_l; [assumption | lra]).
  rewrite (py_trunc_floor _ Hq).
  pose proof (Qfloor_le (v / iv)) as Hlo.
  pose proof (Qlt_floor (v / iv)) as Hhi.
  assert (Hback : v / iv * iv == v) by (field; lra).
  repeat split.
  - change 0%Z with (Qfloor 0). apply Qfloor_resp_le. exact Hq.
  - rewrite <- Hback at 2. apply Qmult_le_r; assumption.
  - rewrite <- Hback at 1. apply Qmult_lt_r; assumption.
Qed.

Lemma in_bucket_unique (iv v : Q) (i j : Z) :
  0 < iv -> in_bucket iv i v -> in_bucket iv j v -> i = j.
Proof.
  intros Hiv [Hi1 Hi2] [Hj1 Hj2].
  assert (Hij : inject_Z i * iv < inject_Z (j + 1) * iv)
    by (eapply Qlt_le_trans; eassumption).
  assert (Hji : inject_Z j * iv < inject_Z (i + 1) * iv)
    by (eapply Qlt_le_trans; eassumption).
  apply Qmult_lt_r in Hij; [| assumption].
  apply Qmult_lt_r in Hji; [| assumption].
  rewrite <- Zlt_Qlt in Hij, Hji. lia.
Qed.

Lemma length_set_nth {A : Type} (n : nat) (x : A) (l : list A) :
  List.length (set_nth n x l) = List.length l.
Proof.
  revert n. induction l as [| a l IH]; intros [| n]; simpl; auto.
Qed.

Lemma nth_set_nth_same {A : Type} (n : nat) (x d : A) (l : list A) :
  (n < List.length l)%nat -> nth n (set_nth n x l) d = x.
Proof.
  revert n. induction l as [| a l IH]; intros [| n] Hn; simpl in *;
    try lia; auto.
  apply IH. lia.
Qed.

Lemma nth_set_nth_other {A : Type} (n m : nat) (x d : A) (l : list A) :
  n <> m -> nth m (set_nth n x l) d = nth m l d.
Proof.
  revert n m. induction l as [| a l IH]; intros [| n] [| m] Hnm; simpl;
    try congruence; auto.
Qed.

Lemma py_index_in_range (n : nat) (i : Z) :
  (0 <= i < Z.of_nat n)%Z -> py_index (Z.of_nat n) i = Some (Z.to_nat i).
Proof.
  intros Hi. unfold py_index.
  replace (0 <=? i)%Z with true by (symmetry; apply Z.leb_le; lia).
  replace (i <? Z.of_nat n)%Z with true by (symmetry; apply Z.ltb_lt; lia).
  reflexivity.
Qed.

(** A positive sample within the configured maximum lands in the bucket
    whose bounds enclose it. *)
Lemma sample_in_range (h : StatHistogram) (v : Q) :
  histogram_wf h -> 0 < h_interval h -> 0 < v -> v <= h_max_value h ->
  exists i : nat,
    (i < List.length (h_buckets h))%nat /\
    in_bucket (h_interval h) (Z.of_nat i) v /\
    sample h v = (sampled_into h v i, Return tt).
Proof.
  intros (Hbc & Hlen & Hmax) Hiv Hv Hle.
  destruct (py_trunc_bracket (h_interval h) v Hiv (Qlt_le_weak _ _ Hv))
    as (Ht0 & Hlo & Hhi).
  set (t := py_trunc (v / h_interval h)) in *.
  assert (Hsample : forall idx : Z,
             (if Qeq_bool (inject_Z t * h_interval h) v
              then (t - 1)%Z else t) = idx ->
             (0 <= idx < Z.of_nat (List.length (h_buckets h)))%Z ->
             sample h v = (sampled_into h v (Z.to_nat idx), Return tt)).
  { intros idx Hidx Hrange. unfold sample. cbn [h_max_value h_interval
      h_buckets h_name h_help h_sum h_count h_bucket_count].
    replace (Qle_bool v (h_max_value h)) with true
      by (symmetry; apply Qle_bool_iff; exact Hle).
    replace (Qeq_bool (h_interval h) 0) with false
      by (symmetry; apply not_true_is_false; intros E;
          apply Qeq_bool_eq in E; lra).
    fold t. rewrite Hidx. unfold bump_bucket.
    rewrite (py_index_in_range _ _ Hrange). reflexivity. }
  rewrite Hmax in Hle.
  destruct (Qeq_bool (inject_Z t * h_interval h) v) eqn:Heq.
  - apply Qeq_bool_eq in Heq.
    assert (Ht1 : (1 <= t)%Z).
    { destruct (Z.eq_dec t 0) as [E | E]; [| lia].
      rewrite E in Heq. change (inject_Z 0) with 0 in Heq. lra. }
    assert (Htbc : (t <= h_bucket_count h)%Z).
    { rewrite Zle_Qle. apply (Qmult_le_r _ _ (h_interval h) Hiv).
      rewrite Heq. exact Hle. }
    exists (Z.to_nat (t - 1)). split; [lia |]. split.
    + unfold in_bucket. rewrite Z2Nat.id by lia.
      replace (t - 1 + 1)%Z with t by lia. split; [| lra].
      rewrite <- Heq. apply Qmult_lt_r; [assumption |].
      rewrite <- Zlt_Qlt. lia.
    + apply Hsample; [reflexivity | lia].
  - apply Qeq_bool_neq in Heq.
    assert (Hlt : inject_Z t * h_interval h < v).
    { apply Qle_lteq in Hlo. destruct Hlo as [Hlo | Hlo];
        [exact Hlo | contradiction]. }
    assert (Htbc : (t < h_bucket_count h)%Z).
    { rewrite Zlt_Qlt. apply (Qmult_lt_r _ _ (h_interval h) Hiv).
      eapply Qlt_le_trans; eassumption. }
    exists (Z.to_nat t). split; [lia |]. split.
    + unfold in_bucket. rewrite Z2Nat.id by lia.
      split; [exact Hlt | apply Qlt_le_weak; exact Hhi].
    + apply Hsample; [reflexivity | lia].
Qed.

(** A sample above the configured maximum bumps no bucket. *)
Lemma sample_above_max (h : StatHistogram) (v : Q) :
  h_max_value h < v -> sample h v = (sampled_outside h v, Return tt).
Proof.
  intros Hgt. unfold sample. cbn [h_max_value].
  replace (Qle_bool v (h_max_value h)) with false; [reflexivity |].
  symmetry. apply not_true_is_false. intros Hle.
  apply Qle_bool_iff in Hle. lra.
Qed.
End HistogramFacts.

Section HistogramClaims.
Local Open Scope Q_scope.

Lemma StatHistogram_init_wf (name help : string) (interval : Q)
    (bucket_count : Z) :
  (0 <= bucket_count)%Z ->
  histogram_wf (StatHistogram_init name help interval bucket_count).
Proof.
  intros Hbc. unfold histogram_wf, StatHistogram_init. simpl.
  rewrite repeat_length. repeat split; lia.
Qed.

Lemma sample_wf (h : StatHistogram) (v : Q) :
  histogram_wf h -> histogram_wf (fst (sample h v)).
Proof.
  intros (Hbc & Hlen & Hmax). unfold sample, bump_bucket.
  cbn [h_max_value h_interval h_buckets h_name h_help h_sum h_count
       h_bucket_count].
  destruct (Qle_bool v (h_max_value h)); [| repeat split; assumption].
  destruct (Qeq_bool (h_interval h) 0); [repeat split; assumption |].
  destruct (py_index _ _); repeat split; simpl; try assumption.
  rewrite length_set_nth. assumption.
Qed.

(** C5: one call to [sample(v)] adds exactly 1 to [count] and exactly [v]
    to [sum], whatever happens to the buckets, also when [v] exceeds
    [bucket_count * interval] and also when the bucket update raises. *)
Theorem sample_count_and_sum (h : StatHistogram) (v : Q) :
  h_count (fst (sample h v)) = (h_count h + 1)%Z /\
  h_sum (fst (sample h v)) = h_sum h + v.
Proof.
  unfold sample.
  cbn [h_max_value h_interval h_buckets h_name h_help h_sum h_count
       h_bucket_count].
  destruct (Qle_bool v (h_max_value h)); [| split; reflexivity].
  destruct (Qeq_bool (h_interval h) 0); [split; reflexivity |].
  destruct (bump_bucket _ _); split; reflexivity.
Qed.

(** In exact arithmetic, for a positive sample the buckets follow the
    exposition labels:
    bucket [i] is bumped exactly when [i*interval < v <= (i+1)*interval],
    and nothing is bumped above the maximum. *)
Lemma sample_positive_buckets (h : StatHistogram) (v : Q) :
  histogram_wf h -> 0 < h_interval h -> 0 < v ->
  snd (sample h v) = Return tt /\
  (forall i : Z, (0 <= i < h_bucket_count h)%Z ->
     in_bucket (h_interval h) i v ->
     bucket (fst (sample h v)) i = (bucket h i + 1)%Z) /\
  (forall i : Z, (0 <= i < h_bucket_count h)%Z ->
     ~ in_bucket (h_interval h) i v ->
     bucket (fst (sample h v)) i = bucket h i) /\
  (inject_Z (h_bucket_count h) * h_interval h < v ->
     h_buckets (fst (sample h v)) = h_buckets h).
Proof.
  intros Hwf Hiv Hv.
  destruct (Qlt_le_dec (h_max_value h) v) as [Hgt | Hle].
  - rewrite (sample_above_max h v Hgt). simpl. repeat split; auto.
    intros i Hi [_ Hin]. exfalso.
    destruct Hwf as (Hbc & Hlen & Hmax). rewrite Hmax in Hgt.
    assert (Hle : inject_Z (i + 1) * h_interval h
                  <= inject_Z (h_bucket_count h) * h_interval h).
    { apply Qmult_le_r; [assumption |]. rewrite <- Zle_Qle. lia. }
    lra.
  - destruct (sample_in_range h v Hwf Hiv Hv Hle) as (n & Hn & Hin & Hs).
    rewrite Hs. simpl. split; [reflexivity |]. split; [| split].
    + intros i Hi Hi'.
      assert (E : Z.of_nat n = i)
        by (apply (in_bucket_unique (h_interval h) v); assumption).
      subst i. unfold bucket. simpl. rewrite Nat2Z.id.
      apply nth_set_nth_same. exact Hn.
    + intros i Hi Hni. unfold bucket. simpl.
      apply nth_set_nth_other. intros E. apply Hni.
      subst n. rewrite Z2Nat.id in Hin by lia. exact Hin.
    + intros Hgt. destruct Hwf as (_ & _ & Hmax). rewrite Hmax in Hle. lra.
Qed.



Lemma py_trunc_zero (v iv : Q) : v == 0 -> py_trunc (v / iv) = 0%Z.
Proof.
  intros Hv. assert (Hn : Qnum v = 0%Z).
  { unfold Qeq in Hv. simpl in Hv. lia. }
  unfold py_trunc, Qdiv, Qmult. simpl. rewrite Hn. simpl.
  apply Z.quot_0_l. lia.
Qed.

Lemma py_index_minus_one (n : nat) :
  (1 <= n)%nat -> py_index (Z.of_nat n) (-1) = Some (n - 1)%nat.
Proof.
  intros Hn. unfold py_index. simpl.
  replace (- Z.of_nat n <=? -1)%Z with true
    by (symmetry; apply Z.leb_le; lia).
  simpl. f_equal. lia.
Qed.

(** At a zero sample the truncated quotient is [0], the boundary test
    [index * interval == value] holds, the index becomes [-1], and
    [buckets[-1]] is the last bucket. *)
Lemma sample_at_zero (h : StatHistogram) (v : Q) :
  histogram_usable h -> v == 0 ->
  sample h v
  = (sampled_into h v (List.length (h_buckets h) - 1), Return tt).
Proof.
  intros ((Hbc & Hlen & Hmax) & Hiv & Hone) Hv. unfold sample.
  cbn [h_max_value h_interval h_buckets h_name h_help h_sum h_count
       h_bucket_count].
  replace (Qle_bool v (h_max_value h)) with true.
  2:{ symmetry. apply Qle_bool_iff. rewrite Hmax, Hv.
      apply Qmult_le_0_compat; [| lra].
      change 0 with (inject_Z 0). rewrite <- Zle_Qle. lia. }
  replace (Qeq_bool (h_interval h) 0) with false
    by (symmetry; apply not_true_is_false; intros E;
        apply Qeq_bool_eq in E; lra).
  rewrite (py_trunc_zero _ _ Hv).
  replace (Qeq_bool (inject_Z 0 * h_interval h) v) with true
    by (symmetry; apply Qeq_bool_iff; rewrite Hv;
        change (inject_Z 0) with 0; lra).
  unfold bump_bucket. simpl (0 - 1)%Z.
  rewrite py_index_minus_one by lia. reflexivity.
Qed.

(** With a positive width and at least one bucket, [sample] files every
    non-negative value without raising. *)
Lemma sample_returns (h : StatHistogram) (v : Q) :
  histogram_usable h -> 0 <= v -> snd (sample h v) = Return tt.
Proof.
  intros Hu Hv. destruct (Qeq_dec v 0) as [E | NE].
  - rewrite (sample_at_zero h v Hu E). reflexivity.
  - destruct Hu as (Hwf & Hiv & _).
    apply (sample_positive_buckets h v Hwf Hiv). lra.
Qed.

Lemma sample_usable (h : StatHistogram) (v : Q) :
  histogram_usable h -> histogram_usable (fst (sample h v)).
Proof.
  intros (Hwf & Hiv & Hone). pose proof (sample_wf h v Hwf) as Hwf'.
  split; [exact Hwf' |]. revert Hiv Hone. unfold sample, bump_bucket.
  cbn [h_max_value h_interval h_buckets h_name h_help h_sum h_count
       h_bucket_count].
  destruct (Qle_bool v (h_max_value h)); [| auto].
  destruct (Qeq_bool (h_interval h) 0); [auto |].
  destruct (py_index _ _); auto.
Qed.

(** C2, at the sample [0]: the code bumps the last bucket, although no
    bucket's bounds [i*interval < v <= (i+1)*interval] enclose [0]. *)
Theorem sample_zero_bumps_last_bucket (h : StatHistogram) :
  histogram_wf h -> 0 < h_interval h -> (1 <= h_bucket_count h)%Z ->
  snd (sample h 0) = Return tt /\
  bucket (fst (sample h 0)) (h_bucket_count h - 1)
    = (bucket h (h_bucket_count h - 1) + 1)%Z /\
  (forall i : Z, (0 <= i)%Z -> ~ in_bucket (h_interval h) i 0).
Proof.
  intros Hwf Hiv Hone.
  rewrite (sample_at_zero h 0) by (repeat split; try apply Hwf; auto;
                                   reflexivity).
  destruct Hwf as (Hbc & Hlen & Hmax).
  simpl. split; [reflexivity |]. split.
  - unfold bucket. simpl.
    replace (Z.to_nat (h_bucket_count h - 1))
      with (List.length (h_buckets h) - 1)%nat by lia.
    apply nth_set_nth_same. lia.
  - intros i Hi [Hlo _].
    assert (0 <= inject_Z i * h_interval h).
    { apply Qmult_le_0_compat; [| lra].
      change 0 with (inject_Z 0). rewrite <- Zle_Qle. lia. }
    lra.
Qed.

Lemma sample_zero_bumps_last_bucket_witness :
  histogram_wf tile_size_0 /\ 0 < h_interval tile_size_0 /\
  (1 <= h_bucket_count tile_size_0)%Z /\
  bucket (fst (sample tile_size_0 0)) 31 = 1%Z /\
  (forall i : Z, (0 <= i)%Z -> ~ in_bucket (h_interval tile_size_0) i 0).
Proof.
  assert (Hwf : histogram_wf tile_size_0)
    by (apply StatHistogram_init_wf; lia).
  assert (Hiv : 0 < h_interval tile_size_0) by reflexivity.
  assert (Hbc : (1 <= h_bucket_count tile_size_0)%Z) by (simpl; lia).
  split; [exact Hwf |]. split; [exact Hiv |]. split; [exact Hbc |].
  exact (proj2 (sample_zero_bumps_last_bucket tile_size_0 Hwf Hiv Hbc)).
Defined.
End HistogramClaims.

(* ################################################################## *)
(** * Properties of the tile encoder *)

Section KeyOrder.

Lemma pystr_compare_eq (a b : pystr) : pystr_compare a b = Eq <-> a = b.
Proof.
  revert b. induction a as [| x a IH]; intros [| y b]; simpl;
    try (split; congruence).
  destruct (N.compare_spec x y) as [E | L | G].
  - subst y. rewrite IH. split; congruence.
  - split; [discriminate | intros E; inversion E; lia].
  - split; [discriminate | intros E; inversion E; lia].
Qed.

Lemma pystr_compare_antisym (a b : pystr) :
  pystr_compare b a = CompOpp (pystr_compare a b).
Proof.
  revert b. induction a as [| x a IH]; intros [| y b]; simpl; auto.
  rewrite (N.compare_antisym x y).
  destruct (N.compare x y); simpl; auto.
Qed.

Lemma pystr_compare_lt_trans (a b c : pystr) :
  pystr_compare a b = Lt -> pystr_compare b c = Lt ->
  pystr_compare a c = Lt.
Proof.
  revert b c. induction a as [| x a IH]; intros [| y b] [| z c]; simpl;
    try congruence.
  destruct (N.compare_spec x y) as [Exy | Lxy | Gxy]; try discriminate;
    destruct (N.compare_spec y z) as [Eyz | Lyz | Gyz]; try discriminate;
    intros H1 H2.
  - subst. rewrite N.compare_refl. eapply IH; eassumption.
  - subst. apply N.compare_lt_iff in Lyz. rewrite Lyz. reflexivity.
  - subst. apply N.compare_lt_iff in Lxy. rewrite Lxy. reflexivity.
  - assert (L : (x < z)%N) by lia.
    apply N.compare_lt_iff in L. rewrite L. reflexivity.
Qed.

Lemma pystr_compare_refl (a : pystr) : pystr_compare a a = Eq.
Proof. apply pystr_compare_eq. reflexivity. Qed.

Context {V : Type}.

Lemma key_lt_asym (p q : pystr * V) : key_lt p q -> key_lt q p -> False.
Proof.
  unfold key_lt. intros H1 H2.
  pose proof (pystr_compare_lt_trans _ _ _ H1 H2) as H3.
  rewrite pystr_compare_refl in H3. discriminate.
Qed.

Lemma insert_item_perm (x : pystr * V) (l : list (pystr * V)) :
  Permutation (insert_item x l) (x :: l).
Proof.
  induction l as [| h t IH]; simpl; [reflexivity |].
  destruct (pystr_leb (fst x) (fst h)); [reflexivity |].
  rewrite IH. apply perm_swap.
Qed.

Lemma sort_items_perm (l : list (pystr * V)) :
  Permutation (sort_items l) l.
Proof.
  induction l as [| h t IH]; simpl; [reflexivity |].
  rewrite insert_item_perm. apply perm_skip. exact IH.
Qed.

Lemma insert_item_sorted (x : pystr * V) (l : list (pystr * V)) :
  StronglySorted key_lt l ->
  (forall y, In y l -> fst y <> fst x) ->
  StronglySorted key_lt (insert_item x l).
Proof.
  induction l as [| h t IH]; intros Hs Hfresh; simpl.
  - constructor; constructor.
  - inversion Hs as [| ? ? Ht Hall]; subst.
    assert (Hne : pystr_compare (fst x) (fst h) <> Eq).
    { intros E. apply pystr_compare_eq in E.
      apply (Hfresh h); [left; reflexivity | congruence]. }
    unfold pystr_leb.
    destruct (pystr_compare (fst x) (fst h)) eqn:C; try congruence.
    + constructor; [exact Hs |]. constructor; [exact C |].
      rewrite Forall_forall in *. intros y Hy. unfold key_lt.
      eapply pystr_compare_lt_trans; [exact C | apply Hall; exact Hy].
    + constructor.
      * apply IH; [exact Ht |]. intros y Hy. apply Hfresh. right. exact Hy.
      * rewrite Forall_forall in *. intros y Hy.
        apply (Permutation_in _ (insert_item_perm x t)) in Hy.
        destruct Hy as [E | Hy]; [| apply Hall; exact Hy].
        subst y. unfold key_lt.
        rewrite pystr_compare_antisym, C. reflexivity.
Qed.

Lemma sort_items_sorted (l : list (pystr * V)) :
  NoDup (map fst l) -> StronglySorted key_lt (sort_items l).
Proof.
  induction l as [| h t IH]; intros Hnd; simpl; [constructor |].
  inversion Hnd as [| ? ? Hnotin Hnd']; subst.
  apply insert_item_sorted; [apply IH; exact Hnd' |].
  intros y Hy E. apply Hnotin. rewrite <- E.
  apply in_map. apply (Permutation_in _ (sort_items_perm t)). exact Hy.
Qed.

(** Two lists in strict key order with the same items are the same list. *)
Lemma sorted_perm_unique (l1 l2 : list (pystr * V)) :
  StronglySorted key_lt l1 -> StronglySorted key_lt l2 ->
  Permutation l1 l2 -> l1 = l2.
Proof.
  revert l2. induction l1 as [| a l1 IH]; intros l2 H1 H2 Hp.
  - apply Permutation_nil in Hp. congruence.
  - destruct l2 as [| b l2].
    { apply Permutation_sym, Permutation_nil in Hp. discriminate. }
    inversion H1 as [| ? ? H1' Hall1]; subst.
    inversion H2 as [| ? ? H2' Hall2]; subst.
    assert (Hab : a = b).
    { assert (Ha : In a (b :: l2))
        by (apply (Permutation_in _ Hp); left; reflexivity).
      assert (Hb : In b (a :: l1))
        by (apply (Permutation_in _ (Permutation_sym Hp)); left;
            reflexivity).
      destruct Ha as [E | Ha]; [congruence |].
      destruct Hb as [E | Hb]; [congruence |].
      rewrite Forall_forall in Hall1, Hall2.
      exfalso. apply (key_lt_asym a b); [apply Hall1 | apply Hall2];
        assumption. }
    subst b. f_equal. apply IH; try assumption.
    apply Permutation_cons_inv in Hp. exact Hp.
Qed.

(** The order in which the items were inserted does not show after
    sorting, as long as the keys are distinct. *)
Lemma sort_items_insertion_order (l1 l2 : list (pystr * V)) :
  NoDup (map fst l1) -> Permutation l1 l2 ->
  sort_items l1 = sort_items l2.
Proof.
  intros Hnd Hp.
  assert (Hnd2 : NoDup (map fst l2)).
  { eapply Permutation_NoDup; [| exact Hnd].
    apply Permutation_map. exact Hp. }
  apply sorted_perm_unique; try (apply sort_items_sorted; assumption).
  rewrite (sort_items_perm l1), (sort_items_perm l2). exact Hp.
Qed.
End KeyOrder.

Section EncoderClaims.

Lemma json_dumps_JDict_insertion_order (r1 r2 : Row) :
  same_fields r1 r2 -> json_dumps (JDict r1) = json_dumps (JDict r2).
Proof.
  intros [E | [Hnd Hp]]; [subst r2; reflexivity |].
cbn [json_dumps]. do 4 f_equal.
  apply sort_items_insertion_order.
  - rewrite map_map.
    erewrite map_ext; [exact Hnd |]. intros [k v]. reflexivity.
  - apply Permutation_map. exact Hp.
Qed.

Lemma features_insertion_order (rows1 rows2 : list Row) :
  Forall2 same_fields rows1 rows2 ->
  map json_dumps (map asdict rows1) = map json_dumps (map asdict rows2).
Proof.
  induction 1 as [| r1 r2 rows1 rows2 Hr _ IH]; simpl; [reflexivity |].
  f_equal; [| exact IH].
  apply json_dumps_JDict_insertion_order. exact Hr.
Qed.

(** C6: the encoder is a function of the row sequence alone, and two row
    sequences that differ only in the insertion order of the fields of
    their records (field names distinct within a record) encode to the
    same text: the members of every object are written in key order. *)
Theorem encode_tile_deterministic (rows1 rows2 : list Row) :
  Forall2 same_fields rows1 rows2 ->
  encode_tile rows1 = encode_tile rows2.
Proof.
  intros Hrows. unfold encode_tile, tile_object.
  cbn [json_dumps map]. rewrite (features_insertion_order _ _ Hrows).
  reflexivity.
Qed.

Lemma encode_tile_deterministic_witness :
  Forall2 same_fields rows_id_name rows_name_id /\
  encode_tile rows_id_name = encode_tile rows_name_id.
Proof.
  assert (Hrows : Forall2 same_fields rows_id_name rows_name_id).
  { constructor; [| constructor]. right. split.
  - repeat constructor; simpl; intuition discriminate.
  - apply perm_swap. }
  split; [exact Hrows |].
  exact (encode_tile_deterministic rows_id_name rows_name_id Hrows).
Defined.

(** C9: the empty row sequence encodes, without failing, to the document
    with an empty [features] array. *)
Theorem encode_tile_empty : encode_tile [] = empty_tile.
Proof. reflexivity. Qed.
End EncoderClaims.

(* ################################################################## *)
(** * Properties of the request handlers *)

Ltac run_handlers :=
  unfold serve_tile, error_middleware, tile_handler, tile_handler_pooling,
    tile_handler_on_conn, gentile_async, async_with, cursor_execute,
    cursor_fetchall, try_except, bind, await, send, when, ret, raise,
    update_metrics, tile_querytime_sample, tile_size_sample.

Section HandlerFacts.

(** [sample] raises nothing but the two errors of its bucket update. *)
Lemma sample_raises (h : StatHistogram) (v : Q) (e : PyExn) :
  snd (sample h v) = Raise e -> e = ZeroDivisionError \/ e = IndexError.
Proof.
  unfold sample.
  destruct (Qle_bool _ _); [| discriminate].
  destruct (Qeq_bool _ _); [simpl; intros E; inversion E; auto |].
  destruct (bump_bucket _ _); simpl; intros E; inversion E; auto.
Qed.

(** What [gentile_async] hands back: a string, or an exception that is
    not an HTTP one.  It touches neither the counters nor, when it is
    not asked to gather metrics, anything but the statement log. *)
Lemma gentile_async_outcome (env : Env) (zoom x y : N) (g : bool)
    (w : World) :
  counters (metrics (fst (gentile_async env zoom x y g w)))
    = counters (metrics w) /\
  match snd (gentile_async env zoom x y g w) with
  | Return (PyStr _) => True
  | Return PyNone => False
  | Raise e => is_HTTPException e = false
  end.
Proof.
  run_handlers. cbn [metrics issued fst snd].
  destruct (execute_timeout_set env) as [[] | e1];
    [| destruct e1; simpl; auto].
  destruct (execute_tile_query env) as [[] | e2];
    [| destruct e2; simpl; auto].
  destruct (fetchall env) as [rows | e3]; [| destruct e3; simpl; auto].
  destruct g; cbn [metrics issued fst snd]; [| simpl; auto].
  destruct (sample (tile_querytime (metrics w)) (elapsed env))
    as [h1 o1] eqn:S1.
  destruct o1 as [[] | e1]; cbn [metrics issued fst snd].
  - destruct (sample (tile_size (set_tile_querytime h1 (metrics w)))
                (len (encode_tile rows))) as [h2 o2] eqn:S2.
    destruct o2 as [[] | e2]; cbn [metrics issued fst snd].
    + simpl. auto.
    + assert (H2 : snd (sample (tile_size (set_tile_querytime h1
                     (metrics w))) (len (encode_tile rows))) = Raise e2)
        by (rewrite S2; reflexivity).
      apply sample_raises in H2. destruct H2; subst e2; simpl; auto.
  - assert (H1 : snd (sample (tile_querytime (metrics w)) (elapsed env))
                 = Raise e1) by (rewrite S1; reflexivity).
    apply sample_raises in H1. destruct H1; subst e1; simpl; auto.
Qed.

Lemma len_nonneg (s : string) : (0 <= len s)%Q.
Proof.
  unfold len. change 0%Q with (inject_Z 0). rewrite <- Zle_Qle. lia.
Qed.

(** When the store returns rows, [gentile_async] returns their encoding;
    gathering metrics needs histograms that can file the two samples. *)
Lemma gentile_async_returns (env : Env) (zoom x y : N) (g : bool)
    (w : World) (rows : list Row) :
  store_returns env rows ->
  (g = true -> metrics_usable (metrics w) /\ (0 <= elapsed env)%Q) ->
  exists w1,
    gentile_async env zoom x y g w = (w1, Return (PyStr (encode_tile rows)))
    /\ counters (metrics w1) = counters (metrics w)
    /\ issued w1 = tile_query zoom x y :: timeout_set :: issued w.
Proof.
  intros (Hts & Hq & Hf) Hg. run_handlers. rewrite Hts, Hq, Hf.
  cbn [metrics issued fst snd].
  destruct g; cbn [metrics issued fst snd].
  - destruct (Hg eq_refl) as ((Hqt & Hsz) & Hel).
    pose proof (sample_returns _ _ Hqt Hel) as R1.
    destruct (sample (tile_querytime (metrics w)) (elapsed env))
      as [h1 o1]. simpl in R1. subst o1. cbn [metrics issued fst snd].
    pose proof (sample_returns _ _ Hsz (len_nonneg (encode_tile rows)))
      as R2.
    change (tile_size (set_tile_querytime h1 (metrics w)))
      with (tile_size (metrics w)).
    destruct (sample (tile_size (metrics w)) (len (encode_tile rows)))
      as [h2 o2]. simpl in R2. subst o2. cbn [metrics issued fst snd].
    eexists. split; [reflexivity |]. split; reflexivity.
  - eexists. split; [reflexivity |]. split; reflexivity.
Qed.

(** [int] of a digit text raises nothing but [ValueError]. *)
Lemma py_int_raises (s : Decimal.uint) (e : PyExn) :
  py_int s = Raise e -> e = ValueError.
Proof.
unfold py_int. destruct s;
  repeat match goal with
         | |- context [if ?b then _ else _] => destruct b
         end; intros E; inversion E; reflexivity.
Qed.

(** The tile route as one case analysis over what the store answers and
    over the conversion of the three route parameters. *)
Lemma serve_tile_shape (env : Env) (request : Request) (w : World) :
  serve_tile env request w =
  match pool_acquire env with
  | Fails e => escaped (exn_of_store e) w
  | Ok _ =>
      match conn_cursor env with
      | Fails e => escaped (exn_of_store e) w
      | Ok _ =>
          match py_int (req_zoom request) with
          | Raise e => escaped e w
          | Return zoom =>
              if (zoom =? zoom_default)%N then
                match py_int (req_x request) with
                | Raise e => escaped e w
                | Return x =>
                    match py_int (req_y request) with
                    | Raise e => escaped e w
                    | Return y =>
                        match gentile_async env zoom x y true w with
                        | (w1, Return (PyStr s)) =>
                            (served_counted w1,
                             Return (mkResponse 200 s "application/json"))
                        | (w1, Return PyNone) =>
                            escaped HTTPInternalServerError w1
                        | (w1, Raise e) => escaped e w1
                        end
                    end
                end
              else escaped HTTPNotFound w
          end
      end
  end.
Proof.
unfold serve_tile, error_middleware, tile_handler, tile_handler_pooling,
  tile_handler_on_conn, async_with, try_except, bind, await, ret, raise,
  update_metrics, lift, escaped.
destruct (pool_acquire env) as [[] | e]; [| destruct e; reflexivity].
destruct (conn_cursor env) as [[] | e]; [| destruct e; reflexivity].
cbv beta zeta iota.
destruct (py_int (req_zoom request)) as [zoom | ez] eqn:Hz;
  [| rewrite (py_int_raises _ _ Hz); reflexivity].
destruct (zoom =? zoom_default)%N; [| reflexivity].
cbn [negb].
destruct (py_int (req_x request)) as [x | ex] eqn:Hx;
  [| rewrite (py_int_raises _ _ Hx); reflexivity].
destruct (py_int (req_y request)) as [y | ey] eqn:Hy;
  [| rewrite (py_int_raises _ _ Hy); reflexivity].
pose proof (proj2 (gentile_async_outcome env zoom x y true w)) as Ho.
destruct (gentile_async env zoom x y true w) as [w1 o].
cbn [snd] in Ho.
destruct o as [[| s] | e]; [contradiction | reflexivity |].
destruct (is_Exception e); simpl; rewrite Ho; reflexivity.
Qed.

(** The answer of the route: never 503, and the query-failure counter
    never moves. *)
Lemma serve_tile_never_503 (env : Env) (request : Request) (w : World) :
  response_status (snd (serve_tile env request w)) <> 503 /\
  tile_queryfail (metrics (fst (serve_tile env request w)))
    = tile_queryfail (metrics w).
Proof.
assert (Hesc : forall e w0,
           is_HTTPException e = false ->
           tile_queryfail (metrics w0) = tile_queryfail (metrics w) ->
           response_status (snd (escaped e w0)) <> 503 /\
           tile_queryfail (metrics (fst (escaped e w0)))
           = tile_queryfail (metrics w)).
{ intros e w0 He Hq. unfold escaped. rewrite He.
  destruct (is_Exception e); simpl; (split; [discriminate | exact Hq]). }
rewrite serve_tile_shape.
destruct (pool_acquire env) as [[] | e];
  [| apply Hesc; [destruct e |]; reflexivity].
destruct (conn_cursor env) as [[] | e];
  [| apply Hesc; [destruct e |]; reflexivity].
destruct (py_int (req_zoom request)) as [zoom | ez] eqn:Hz;
  [| rewrite (py_int_raises _ _ Hz); apply Hesc; reflexivity].
destruct (zoom =? zoom_default)%N;
  [| simpl; split; [discriminate | reflexivity]].
destruct (py_int (req_x request)) as [x | ex] eqn:Hx;
  [| rewrite (py_int_raises _ _ Hx); apply Hesc; reflexivity].
destruct (py_int (req_y request)) as [y | ey] eqn:Hy;
  [| rewrite (py_int_raises _ _ Hy); apply Hesc; reflexivity].
destruct (gentile_async_outcome env zoom x y true w) as [Hc Ho].
destruct (gentile_async env zoom x y true w) as [w1 o].
cbn [fst snd] in Hc, Ho.
assert (Hqf : tile_queryfail (metrics w1) = tile_queryfail (metrics w))
  by (unfold counters in Hc; congruence).
destruct o as [[| s] | e]; [contradiction | |].
- simpl. split; [discriminate | exact Hqf].
- apply Hesc; assumption.
Qed.

(** The histograms stay usable: with the module's initial metrics every
request finds them so. *)
Lemma metrics_0_usable : metrics_usable metrics_0.
Proof.
split; (split; [apply StatHistogram_init_wf; lia |]);
  (split; [reflexivity | simpl; lia]).
Qed.

Lemma gentile_async_usable (env : Env) (zoom x y : N) (g : bool)
    (w : World) :
  metrics_usable (metrics w) ->
  metrics_usable (metrics (fst (gentile_async env zoom x y g w))).
Proof.
intros [Hqt Hsz]. run_handlers. cbn [metrics issued fst snd].
destruct (execute_timeout_set env) as [[] | e1];
  [| destruct e1; simpl; split; assumption].
destruct (execute_tile_query env) as [[] | e2];
  [| destruct e2; simpl; split; assumption].
destruct (fetchall env) as [rows | e3];
  [| destruct e3; simpl; split; assumption].
destruct g; cbn [metrics issued fst snd]; [| simpl; split; assumption].
pose proof (sample_usable _ (elapsed env) Hqt) as Hqt'.
destruct (sample (tile_querytime (metrics w)) (elapsed env)) as [h1 o1].
cbn [fst] in Hqt'.
destruct o1 as [[] | e1]; cbn [metrics issued fst snd];
  [| destruct (is_psycopg2_Error e1); simpl; split; assumption].
change (tile_size (set_tile_querytime h1 (metrics w)))
  with (tile_size (metrics w)).
pose proof (sample_usable _ (len (encode_tile rows)) Hsz) as Hsz'.
destruct (sample (tile_size (metrics w)) (len (encode_tile rows)))
  as [h2 o2].
cbn [fst] in Hsz'.
destruct o2 as [[] | e2]; [| destruct (is_psycopg2_Error e2)];
  simpl; split; assumption.
Qed.

Lemma serve_tile_usable (env : Env) (request : Request) (w : World) :
  metrics_usable (metrics w) ->
  metrics_usable (metrics (fst (serve_tile env request w))).
Proof.
intros Hu.
assert (Hesc : forall e w0, metrics_usable (metrics w0) ->
                            metrics_usable (metrics (fst (escaped e w0)))).
{ intros e w0 H0. unfold escaped. destruct (is_Exception e); exact H0. }
rewrite serve_tile_shape.
destruct (pool_acquire env) as [[] | e]; [| apply Hesc; exact Hu].
destruct (conn_cursor env) as [[] | e]; [| apply Hesc; exact Hu].
destruct (py_int (req_zoom request)) as [zoom | ez];
  [| apply Hesc; exact Hu].
destruct (zoom =? zoom_default)%N; [| apply Hesc; exact Hu].
destruct (py_int (req_x request)) as [x | ex]; [| apply Hesc; exact Hu].
destruct (py_int (req_y request)) as [y | ey]; [| apply Hesc; exact Hu].
pose proof (gentile_async_usable env zoom x y true w Hu) as Hu1.
destruct (gentile_async env zoom x y true w) as [w1 o].
cbn [fst] in Hu1.
destruct o as [[| s] | e]; try (apply Hesc); exact Hu1.
Qed.
End HandlerFacts.

Section HandlerClaims.

(** The whole trace of a request whose query raises a [psycopg2.Error]:
    [gentile_async] raises it again, [tile_handler_pooling] counts an
    exception, [error_middleware] answers 500; nothing else moves.  (A
    coordinate that [int] refuses ends the same way before the query.) *)
Lemma store_failure_trace (env : Env) (request : Request) (w : World) :
  connected env -> supported_zoom request ->
  query_raises_psycopg2 env ->
  (forall x y,
      snd (gentile_async env zoom_default x y true w)
      = Raise Psycopg2Error /\
      metrics (fst (gentile_async env zoom_default x y true w))
      = metrics w) /\
  snd (serve_tile env request w) = Raise HTTPInternalServerError /\
  metrics (fst (serve_tile env request w))
    = inc_tile_exception (metrics w).
Proof.
intros [Hacq Hcur] Hzoom Hfail.
assert (Hg : forall x y,
           snd (gentile_async env zoom_default x y true w)
           = Raise Psycopg2Error /\
           metrics (fst (gentile_async env zoom_default x y true w))
           = metrics w).
{ intros x y. run_handlers. cbn [metrics issued fst snd].
  destruct Hfail as [Hts | [[Hts Hq] | (Hts & Hq & Hf)]].
  - rewrite Hts. simpl. auto.
  - rewrite Hts, Hq. simpl. auto.
  - rewrite Hts, Hq, Hf. simpl. auto. }
split; [exact Hg |].
rewrite serve_tile_shape, Hacq, Hcur, Hzoom.
change (zoom_default =? zoom_default)%N with true. cbv iota.
destruct (py_int (req_x request)) as [x | ex] eqn:Hx;
  [| rewrite (py_int_raises _ _ Hx); simpl; auto].
destruct (py_int (req_y request)) as [y | ey] eqn:Hy;
  [| rewrite (py_int_raises _ _ Hy); simpl; auto].
destruct (Hg x y) as [Ho Hm].
destruct (gentile_async env zoom_default x y true w) as [w1 o].
cbn [fst snd] in Ho, Hm. subst o. simpl. rewrite Hm. auto.
Qed.

(** C1 (as the code has it): when the store raises a [psycopg2.Error]
    while [gentile_async] runs the query, the error is raised again, no
    tile is served (the answer is not a 200 and [tile_served] does not
    move) and the exception counter [tile_exception] goes up by exactly
    one. *)
Theorem store_failure_counts_exception (env : Env) (request : Request)
    (w : World) :
  connected env -> supported_zoom request ->
  query_raises_psycopg2 env ->
  (forall x y,
      snd (gentile_async env zoom_default x y true w)
      = Raise Psycopg2Error) /\
  response_status (snd (serve_tile env request w)) <> 200 /\
  tile_served (metrics (fst (serve_tile env request w)))
    = tile_served (metrics w) /\
  c_value (tile_exception (metrics (fst (serve_tile env request w))))
    = c_value (tile_exception (metrics w)) + 1.
Proof.
intros Hconn Hzoom Hfail.
destruct (store_failure_trace env request w Hconn Hzoom Hfail)
  as (Hg & Hout & Hm).
split; [intros x y; apply Hg |]. rewrite Hout, Hm. simpl.
split; [discriminate | split; reflexivity].
Qed.

Lemma store_failure_counts_exception_witness :
  connected env_query_fails /\
  supported_zoom request_16_100_200 /\
  query_raises_psycopg2 env_query_fails /\
  c_value (tile_exception
             (metrics (fst (serve_tile env_query_fails request_16_100_200
                              world_0))))
    = c_value (tile_exception (metrics world_0)) + 1.
Proof.
  assert (Hconn : connected env_query_fails) by (split; reflexivity).
  assert (Hzoom : supported_zoom request_16_100_200) by reflexivity.
  assert (Hfail : query_raises_psycopg2 env_query_fails)
    by (right; left; split; reflexivity).
  split; [exact Hconn |]. split; [exact Hzoom |]. split; [exact Hfail |].
  exact (proj2 (proj2 (proj2
           (store_failure_counts_exception env_query_fails
              request_16_100_200 world_0 Hconn Hzoom Hfail)))).
Defined.

(** C1 as stated fails: the tile query raises a [psycopg2.Error] on
    [GET /16/100/200.json]; the answer is 500, [tile_queryfail] stays at
    0 and [tile_exception] goes to 1. *)
Lemma store_failure_counterexample :
  connected env_query_fails /\ query_raises_psycopg2 env_query_fails /\
  response_status
    (snd (serve_tile env_query_fails request_16_100_200 world_0)) = 500 /\
  ~ (response_status
       (snd (serve_tile env_query_fails request_16_100_200 world_0)) = 503
     /\ c_value (tile_queryfail
                   (metrics (fst (serve_tile env_query_fails
                                    request_16_100_200 world_0))))
        = c_value (tile_queryfail (metrics world_0)) + 1
     /\ c_value (tile_exception
                   (metrics (fst (serve_tile env_query_fails
                                    request_16_100_200 world_0))))
        = c_value (tile_exception (metrics world_0))).
Proof.
  split; [split; reflexivity |].
  split; [right; left; split; reflexivity |].
  split; [reflexivity |].
  intros (H503 & _). vm_compute in H503. discriminate.
Qed.

(** A route parameter that [int] refuses (more than [int_max_str_digits]
    digits): with the connection and its cursor obtained, a refused zoom,
    or a refused coordinate of a request for zoom 16, is answered 500 and
    counted as an exception, and nothing is sent to the store. *)
Lemma refused_parameter_server_error (env : Env) (request : Request)
    (w : World) :
  connected env ->
  py_int (req_zoom request) = Raise ValueError \/
  (supported_zoom request /\
   (py_int (req_x request) = Raise ValueError \/
    (exists x, py_int (req_x request) = Return x /\
               py_int (req_y request) = Raise ValueError))) ->
  serve_tile env request w
  = (exception_counted w, Raise HTTPInternalServerError).
Proof.
intros [Hacq Hcur] Hbad. rewrite serve_tile_shape, Hacq, Hcur.
destruct Hbad as [Hz | [Hz [Hx | (x & Hx & Hy)]]]; rewrite Hz.
- reflexivity.
- change (zoom_default =? zoom_default)%N with true. cbv iota.
  rewrite Hx. reflexivity.
- change (zoom_default =? zoom_default)%N with true. cbv iota.
  rewrite Hx, Hy. reflexivity.
Qed.

(** [GET /16/<4301 nines>/0.json] and [GET /<4301 nines>/0/0.json]:
    [int] refuses the text, the answer is 500 and the store sees
    nothing. *)
Lemma oversized_parameter_refused :
  py_int oversized_text = Raise ValueError /\
  serve_tile (env_rows [])
    (mkRequest (N.to_uint 16) oversized_text (N.to_uint 0)) world_0
  = (exception_counted world_0, Raise HTTPInternalServerError) /\
  serve_tile (env_rows [])
    (mkRequest oversized_text (N.to_uint 0) (N.to_uint 0)) world_0
  = (exception_counted world_0, Raise HTTPInternalServerError).
Proof.
assert (Hbig : py_int oversized_text = Raise ValueError)
  by (vm_compute; reflexivity).
split; [exact Hbig |]. split.
- apply refused_parameter_server_error; [split; reflexivity |].
  right. split; [reflexivity |]. left. exact Hbig.
- apply refused_parameter_server_error; [split; reflexivity |].
  left. exact Hbig.
Qed.

(** C3 (as the code has it): with the connection and its cursor
    obtained, a request whose zoom text [int] converts to a number other
    than 16 is answered 404, sends nothing to the store, and raises the
    exception counter by exactly one: the [HTTPNotFound] leaves through
    the [except Exception] clause of [tile_handler_pooling].  No other
    counter and no histogram changes. *)
Theorem unsupported_zoom_not_found (env : Env) (request : Request)
    (w : World) (zoom : N) :
  connected env -> py_int (req_zoom request) = Return zoom ->
  zoom <> zoom_default ->
  response_status (snd (serve_tile env request w)) = 404 /\
  issued (fst (serve_tile env request w)) = issued w /\
  metrics (fst (serve_tile env request w))
    = inc_tile_exception (metrics w).
Proof.
intros [Hacq Hcur] Hint Hzoom.
rewrite serve_tile_shape, Hacq, Hcur, Hint.
apply N.eqb_neq in Hzoom. rewrite Hzoom. simpl. auto.
Qed.

Lemma unsupported_zoom_not_found_witness :
  connected (env_rows []) /\
  py_int (req_zoom request_15_0_0) = Return 15%N /\
  15%N <> zoom_default /\
  response_status (snd (serve_tile (env_rows []) request_15_0_0 world_0))
    = 404.
Proof.
assert (Hconn : connected (env_rows [])) by (split; reflexivity).
assert (Hint : py_int (req_zoom request_15_0_0) = Return 15%N)
  by reflexivity.
assert (Hzoom : 15%N <> zoom_default) by (unfold zoom_default; lia).
split; [exact Hconn |]. split; [exact Hint |]. split; [exact Hzoom |].
exact (proj1 (unsupported_zoom_not_found (env_rows []) request_15_0_0
                world_0 15%N Hconn Hint Hzoom)).
Defined.

(** C3 as stated fails: [GET /15/0/0.json] is answered 404 and nothing
    is sent to the store, but the exception counter goes from 0 to 1. *)
Lemma unsupported_zoom_counterexample :
  py_int (req_zoom request_15_0_0) = Return 15%N /\
  15%N <> zoom_default /\
  c_value (tile_exception
             (metrics (fst (serve_tile (env_rows []) request_15_0_0
                              world_0)))) = 1 /\
  ~ (response_status
       (snd (serve_tile (env_rows []) request_15_0_0 world_0)) = 404
     /\ issued (fst (serve_tile (env_rows []) request_15_0_0 world_0))
        = issued world_0
     /\ counters (metrics (fst (serve_tile (env_rows []) request_15_0_0
                                  world_0)))
        = counters (metrics world_0)).
Proof.
split; [reflexivity |].
split; [unfold zoom_default; lia |].
split; [reflexivity |].
intros (_ & _ & Hc). vm_compute in Hc. discriminate.
Qed.

(** A request for the supported zoom whose coordinates convert and whose
    query returns rows is served 200 with their encoding, and counted as
    served. *)
Lemma serve_tile_success (env : Env) (request : Request) (w : World)
    (rows : list Row) (x y : N) :
  connected env -> supported_zoom request -> coordinates request x y ->
  store_returns env rows -> metrics_usable (metrics w) ->
  (0 <= elapsed env)%Q ->
  exists w',
    serve_tile env request w
    = (w', Return (mkResponse 200 (encode_tile rows) "application/json"))
    /\ c_value (tile_served (metrics w'))
       = c_value (tile_served (metrics w)) + 1.
Proof.
intros [Hacq Hcur] Hzoom [Hx Hy] Hrows Hu Hel.
destruct (gentile_async_returns env zoom_default x y true w rows Hrows
            (fun _ => conj Hu Hel)) as (w1 & Hg & Hc & _).
rewrite serve_tile_shape, Hacq, Hcur, Hzoom.
change (zoom_default =? zoom_default)%N with true. cbv iota.
rewrite Hx, Hy, Hg. eexists. split; [reflexivity |]. simpl.
unfold counters in Hc. f_equal. congruence.
Qed.

(** C10: whatever rows the store returns (none included),
    [gentile_async] returns a string and never [None]; so the branch of
    [tile_handler_on_conn] taken on [None], the only one that answers
    503 and bumps [tile_queryfail], is never taken, and an empty result
    is served 200 with the empty document. *)
Theorem none_branch_unreachable (env : Env) (request : Request)
    (w : World) (rows : list Row) (x y : N) :
  connected env -> supported_zoom request -> coordinates request x y ->
  store_returns env rows -> metrics_usable (metrics w) ->
  (0 <= elapsed env)%Q ->
  (exists w1,
      gentile_async env zoom_default x y true w
      = (w1, Return (PyStr (encode_tile rows)))) /\
  (forall env' zoom x' y' g w',
      snd (gentile_async env' zoom x' y' g w') <> Return PyNone) /\
  (forall env' request' w',
      response_status (snd (serve_tile env' request' w')) <> 503 /\
      tile_queryfail (metrics (fst (serve_tile env' request' w')))
        = tile_queryfail (metrics w')) /\
  (exists w',
      serve_tile env request w
      = (w', Return (mkResponse 200 (encode_tile rows) "application/json"))
      /\ c_value (tile_served (metrics w'))
         = c_value (tile_served (metrics w)) + 1) /\
  (rows = [] ->
   snd (serve_tile env request w)
   = Return (mkResponse 200 empty_tile "application/json")).
Proof.
intros Hconn Hzoom Hxy Hrows Hu Hel.
destruct (serve_tile_success env request w rows x y Hconn Hzoom Hxy Hrows
            Hu Hel) as (w' & Hs & Hserved).
split; [| split; [| split; [| split]]].
- destruct (gentile_async_returns env zoom_default x y true w rows Hrows
              (fun _ => conj Hu Hel)) as (w1 & Hg & _).
  exists w1. exact Hg.
- intros env' zoom x' y' g w0 Hnone.
  pose proof (proj2 (gentile_async_outcome env' zoom x' y' g w0)) as Ho.
  rewrite Hnone in Ho. exact Ho.
- intros env' request' w0. apply serve_tile_never_503.
- exists w'. split; assumption.
- intros Hempty. rewrite Hs. subst rows. reflexivity.
Qed.

Lemma none_branch_unreachable_witness :
  connected (env_rows []) /\
  supported_zoom request_16_100_200 /\
  coordinates request_16_100_200 100 200 /\
  store_returns (env_rows []) [] /\
  metrics_usable (metrics world_0) /\
  (0 <= elapsed (env_rows []))%Q /\
  snd (serve_tile (env_rows []) request_16_100_200 world_0)
  = Return (mkResponse 200 empty_tile "application/json").
Proof.
assert (Hconn : connected (env_rows [])) by (split; reflexivity).
assert (Hzoom : supported_zoom request_16_100_200) by reflexivity.
assert (Hxy : coordinates request_16_100_200 100 200)
  by (split; reflexivity).
assert (Hrows : store_returns (env_rows []) [])
  by (repeat split; reflexivity).
assert (Hu : metrics_usable (metrics world_0)) by exact metrics_0_usable.
assert (Hel : (0 <= elapsed (env_rows []))%Q)
  by (unfold Qle; simpl; lia).
split; [exact Hconn |]. split; [exact Hzoom |]. split; [exact Hxy |].
split; [exact Hrows |]. split; [exact Hu |]. split; [exact Hel |].
exact (proj2 (proj2 (proj2 (proj2
         (none_branch_unreachable (env_rows []) request_16_100_200
            world_0 [] 100 200 Hconn Hzoom Hxy Hrows Hu Hel)))) eq_refl).
Defined.
End HandlerClaims.

(* ################################################################## *)
(** * Properties of the coordinate math *)

Section CoordinateClaims.
Context `{Binary64}.

(** C8: swapping the two corners of the geographic box gives the same
    tile envelope: the two corners are projected independently and the
    envelope takes minima and maxima.  (If a projection raises, no
    envelope is returned in either order.) *)
Theorem tile_bbox_from_coords_swap (zoom : Z)
    (latA lonA latB lonB : float) :
  returned (tile_bbox_from_coords zoom (latA, lonA, latB, lonB))
  = returned (tile_bbox_from_coords zoom (latB, lonB, latA, lonA)).
Proof.
  unfold tile_bbox_from_coords.
  destruct (osm_deg2num latA lonA zoom) as [[ax ay] | ea];
    destruct (osm_deg2num latB lonB zoom) as [[bx b_y] | eb]; simpl;
    try reflexivity.
  rewrite (Z.min_comm ax bx), (Z.min_comm ay b_y),
    (Z.max_comm ax bx), (Z.max_comm ay b_y).
  reflexivity.
Qed.
End CoordinateClaims.


(* ################################################################## *)
(** * Sequences of samples, and when [sample] raises *)

Section SampleSequences.
Local Open Scope Q_scope.

Lemma sample_count_sum_aux (h : StatHistogram) (v : Q) :
  h_count (fst (sample h v)) = (h_count h + 1)%Z /\
  h_sum (fst (sample h v)) = (h_sum h + v)%Q.
Proof.
unfold sample.
cbn [h_max_value h_interval h_buckets h_name h_help h_sum h_count
     h_bucket_count].
destruct (Qle_bool v (h_max_value h)); [| split; reflexivity].
destruct (Qeq_bool (h_interval h) 0); [split; reflexivity |].
destruct (bump_bucket _ _); split; reflexivity.
Qed.


Lemma bucket_total_set_nth (l : list Z) (i : nat) :
  (i < List.length l)%nat ->
  fold_right Z.add 0%Z (set_nth i (nth i l 0 + 1)%Z l)
  = (fold_right Z.add 0%Z l + 1)%Z.
Proof.
revert i. induction l as [| a l IH]; intros [| i] Hi; simpl in *; try lia.
rewrite IH by lia. lia.
Qed.

Lemma usable_max_nonneg (h : StatHistogram) :
  histogram_usable h -> 0 <= h_max_value h.
Proof.
intros ((Hbc & Hlen & Hmax) & Hiv & Hone). rewrite Hmax.
apply Qmult_le_0_compat; [| lra].
change 0 with (inject_Z 0). rewrite <- Zle_Qle. lia.
Qed.

(** One non-negative sample on a usable histogram. *)
Lemma sample_step (h : StatHistogram) (v : Q) :
  histogram_usable h -> 0 <= v ->
  h_count (fst (sample h v)) = (h_count h + 1)%Z /\
  h_sum (fst (sample h v)) = h_sum h + v /\
  bucket_total (fst (sample h v))
  = (bucket_total h + (if Qle_bool v (h_max_value h) then 1 else 0))%Z /\
  h_max_value (fst (sample h v)) = h_max_value h.
Proof.
intros Hu Hv. pose proof (usable_max_nonneg h Hu) as Hmax0.
destruct (Qeq_dec v 0) as [E | NE].
- rewrite (sample_at_zero h v Hu E). unfold bucket_total. simpl.
  replace (Qle_bool v (h_max_value h)) with true
    by (symmetry; apply Qle_bool_iff; rewrite E; exact Hmax0).
  destruct Hu as ((Hbc & Hlen & _) & _ & Hone).
  rewrite bucket_total_set_nth by lia. auto.
- assert (Hpos : 0 < v) by lra.
  destruct Hu as (Hwf & Hiv & Hone).
  destruct (Qlt_le_dec (h_max_value h) v) as [Hgt | Hle].
  + rewrite (sample_above_max h v Hgt). unfold bucket_total. simpl.
    replace (Qle_bool v (h_max_value h)) with false.
    * repeat split; lia.
    * symmetry. apply not_true_is_false. intros Hb.
      apply Qle_bool_iff in Hb. lra.
  + destruct (sample_in_range h v Hwf Hiv Hpos Hle) as (i & Hi & _ & Hs).
    rewrite Hs. unfold bucket_total. simpl.
    replace (Qle_bool v (h_max_value h)) with true
      by (symmetry; apply Qle_bool_iff; exact Hle).
    rewrite bucket_total_set_nth by exact Hi. auto.
Qed.

(** X1: after any sequence of non-negative integer samples on a usable
    histogram of integers: [count] has grown by the number of samples,
    [sum] by their sum, and the bucket counts together by the number of
    samples that do not exceed the maximum, so the buckets never add up
    to more than [count]. *)
Theorem sample_all_accounting (h : StatHistogram) (values : list Q) :
  histogram_usable h -> integer_histogram h ->
  Forall integer_sample values ->
  h_count (sample_all h values)
  = (h_count h + Z.of_nat (List.length values))%Z /\
  h_sum (sample_all h values) == h_sum h + Qsum values /\
  bucket_total (sample_all h values)
  = (bucket_total h + within_max h values)%Z /\
  histogram_usable (sample_all h values).
Proof.
intros Hu _ Hint.
assert (Hall : Forall (fun v => 0 <= v) values).
{ apply Forall_impl with (2 := Hint). intros v (n & Hn & ->).
  change 0 with (inject_Z 0). rewrite <- Zle_Qle. exact Hn. }
clear Hint. revert h Hu.
induction Hall as [| v values Hv _ IH]; intros h Hu.
- unfold sample_all, within_max. simpl.
  repeat split; try lia; try apply Hu. lra.
- destruct (sample_step h v Hu Hv) as (Hc & Hs & Hb & Hm).
  pose proof (sample_usable h v Hu) as Hu'.
  destruct (IH (fst (sample h v)) Hu') as (Hc' & Hs' & Hb' & Hu'').
  change (sample_all h (v :: values))
    with (sample_all (fst (sample h v)) values).
  split; [| split; [| split]].
  + rewrite Hc', Hc. simpl List.length. lia.
  + rewrite Hs', Hs. simpl. lra.
  + rewrite Hb', Hb. unfold within_max. rewrite Hm. simpl filter.
    destruct (Qle_bool v (h_max_value h)); simpl List.length; lia.
  + exact Hu''.
Qed.

Lemma sample_all_accounting_witness :
  histogram_usable tile_size_0 /\ integer_histogram tile_size_0 /\
  Forall integer_sample [inject_Z 0; inject_Z 45; inject_Z 300000] /\
  bucket_total (sample_all tile_size_0 [inject_Z 0; inject_Z 45; inject_Z 300000])
  = (bucket_total tile_size_0
     + within_max tile_size_0 [inject_Z 0; inject_Z 45; inject_Z 300000])%Z.
Proof.
assert (Hu : histogram_usable tile_size_0).
{ split; [apply StatHistogram_init_wf; lia |].
  split; [reflexivity | simpl; lia]. }
assert (Hi : integer_histogram tile_size_0)
  by (split; [exists 8192%Z; reflexivity | reflexivity]).
assert (Hall : Forall integer_sample
                 [inject_Z 0; inject_Z 45; inject_Z 300000]).
{ repeat constructor;
    [exists 0%Z | exists 45%Z | exists 300000%Z]; split; (lia || reflexivity). }
split; [exact Hu |]. split; [exact Hi |]. split; [exact Hall |].
exact (proj1 (proj2 (proj2
         (sample_all_accounting tile_size_0 _ Hu Hi Hall)))).
Defined.

(** A zero sample on a histogram without buckets: [buckets[-1]] raises. *)
Lemma sample_at_zero_no_bucket (h : StatHistogram) (v : Q) :
  histogram_wf h -> 0 < h_interval h -> h_bucket_count h = 0%Z ->
  v == 0 -> sample h v = (sampled_outside h v, Raise IndexError).
Proof.
intros (Hbc & Hlen & Hmax) Hiv Hzero Hv. unfold sample.
cbn [h_max_value h_interval h_buckets h_name h_help h_sum h_count
     h_bucket_count].
replace (Qle_bool v (h_max_value h)) with true.
2:{ symmetry. apply Qle_bool_iff. rewrite Hmax, Hv, Hzero.
    change (inject_Z 0) with 0. lra. }
replace (Qeq_bool (h_interval h) 0) with false
  by (symmetry; apply not_true_is_false; intros E;
      apply Qeq_bool_eq in E; lra).
rewrite (py_trunc_zero _ _ Hv).
replace (Qeq_bool (inject_Z 0 * h_interval h) v) with true
  by (symmetry; apply Qeq_bool_iff; rewrite Hv;
      change (inject_Z 0) with 0; lra).
assert (Hb : h_buckets h = []).
{ destruct (h_buckets h) as [| b l]; [reflexivity |]. simpl in Hlen. lia. }
unfold bump_bucket, sampled_outside. rewrite Hb. reflexivity.
Qed.

(** X2: for a histogram of integers built by [__init__] with a positive
    width and a non-negative integer value, [sample] raises in exactly one
    situation: the histogram has no bucket and the value is zero; the
    error is [IndexError], raised after [count] and [sum] were updated. *)
Theorem sample_raises_only_without_buckets (h : StatHistogram) (v : Q) :
  histogram_wf h -> 0 < h_interval h -> integer_histogram h ->
  integer_sample v ->
  snd (sample h v)
  = (if (h_bucket_count h =? 0)%Z && Qeq_bool v 0
     then Raise IndexError else Return tt) /\
  h_count (fst (sample h v)) = (h_count h + 1)%Z.
Proof.
intros Hwf Hiv _ (n & Hn & Hvn).
assert (Hv : 0 <= v).
{ rewrite Hvn. change 0 with (inject_Z 0). rewrite <- Zle_Qle. exact Hn. }
clear n Hn Hvn.
split; [| destruct (sample_count_sum_aux h v); assumption].
destruct (Qeq_dec v 0) as [E | NE].
- replace (Qeq_bool v 0) with true
    by (symmetry; apply Qeq_bool_iff; exact E).
  destruct (Z.eqb_spec (h_bucket_count h) 0) as [Hz | Hnz]; simpl.
  + rewrite (sample_at_zero_no_bucket h v Hwf Hiv Hz E). reflexivity.
  + assert (Hu : histogram_usable h).
    { split; [exact Hwf |]. split; [exact Hiv |].
      destruct Hwf as (Hbc & _). lia. }
    rewrite (sample_at_zero h v Hu E). reflexivity.
- replace (Qeq_bool v 0) with false
    by (symmetry; apply not_true_is_false; intros Hb;
        apply Qeq_bool_iff in Hb; contradiction).
  rewrite andb_false_r.
  apply (sample_positive_buckets h v Hwf Hiv). lra.
Qed.
End SampleSequences.


(* ################################################################## *)
(** * The tile route, case by case *)

Section TileRoute.

(** What [gentile_async] sends: the timeout statement, then at most the
    tile query. *)
Lemma gentile_async_issued (env : Env) (zoom x y : N) (g : bool)
    (w : World) :
  issued (fst (gentile_async env zoom x y g w)) = timeout_set :: issued w \/
  issued (fst (gentile_async env zoom x y g w))
  = tile_query zoom x y :: timeout_set :: issued w.
Proof.
run_handlers. cbn [metrics issued fst snd].
destruct (execute_timeout_set env) as [[] | e1];
  [| destruct e1; simpl; auto].
destruct (execute_tile_query env) as [[] | e2];
  [| destruct e2; simpl; auto].
destruct (fetchall env) as [rows | e3]; [| destruct e3; simpl; auto].
destruct g; cbn [metrics issued fst snd]; [| simpl; auto].
destruct (sample (tile_querytime (metrics w)) (elapsed env)) as [h1 o1].
destruct o1 as [[] | e1]; cbn [metrics issued fst snd];
  [| destruct (is_psycopg2_Error e1); simpl; auto].
destruct (sample (tile_size (set_tile_querytime h1 (metrics w)))
            (len (encode_tile rows))) as [h2 o2].
destruct o2 as [[] | e2]; [| destruct (is_psycopg2_Error e2)];
  simpl; auto.
Qed.

(** When [gentile_async] returns, the store has answered the query, the
    value is the encoding of the fetched rows, both statements were sent
    and, with metrics gathered, each histogram took one sample. *)
Lemma gentile_async_return (env : Env) (zoom x y : N) (g : bool)
    (w : World) (v : PyVal) :
  snd (gentile_async env zoom x y g w) = Return v ->
  exists rows,
    store_returns env rows /\ v = PyStr (encode_tile rows) /\
    issued (fst (gentile_async env zoom x y g w))
    = tile_query zoom x y :: timeout_set :: issued w /\
    (g = true ->
     tile_querytime (metrics (fst (gentile_async env zoom x y g w)))
     = fst (sample (tile_querytime (metrics w)) (elapsed env)) /\
     tile_size (metrics (fst (gentile_async env zoom x y g w)))
     = fst (sample (tile_size (metrics w)) (len (encode_tile rows)))).
Proof.
run_handlers. cbn [metrics issued fst snd].
destruct (execute_timeout_set env) as [[] | e1] eqn:Hts;
  [| destruct e1; simpl; discriminate].
destruct (execute_tile_query env) as [[] | e2] eqn:Hq;
  [| destruct e2; simpl; discriminate].
destruct (fetchall env) as [rows | e3] eqn:Hf;
  [| destruct e3; simpl; discriminate].
destruct g; cbn [metrics issued fst snd].
- destruct (sample (tile_querytime (metrics w)) (elapsed env))
    as [h1 o1] eqn:S1.
  destruct o1 as [[] | e1]; cbn [metrics issued fst snd];
    [| destruct (is_psycopg2_Error e1); simpl; discriminate].
  change (tile_size (set_tile_querytime h1 (metrics w)))
    with (tile_size (metrics w)).
  destruct (sample (tile_size (metrics w)) (len (encode_tile rows)))
    as [h2 o2] eqn:S2.
  destruct o2 as [[] | e2]; cbn [metrics issued fst snd];
    [| destruct (is_psycopg2_Error e2); simpl; discriminate].
  simpl. intros E. inversion E; subst v. exists rows.
  split; [exact (conj Hts (conj Hq Hf)) |]. split; [reflexivity |].
  split; [reflexivity |]. intros _. rewrite S2. split; reflexivity.
- simpl. intros E. inversion E; subst v. exists rows.
  split; [exact (conj Hts (conj Hq Hf)) |]. split; [reflexivity |].
  split; [reflexivity |]. discriminate.
Qed.

(** When [gentile_async] raises on usable metrics, no tile size was
    sampled, and the query-time count did not go back. *)
Lemma gentile_async_raise (env : Env) (zoom x y : N) (g : bool)
    (w : World) (e : PyExn) :
  metrics_usable (metrics w) ->
  snd (gentile_async env zoom x y g w) = Raise e ->
  tile_size (metrics (fst (gentile_async env zoom x y g w)))
  = tile_size (metrics w) /\
  h_count (tile_querytime (metrics w))
  <= h_count (tile_querytime
                (metrics (fst (gentile_async env zoom x y g w)))).
Proof.
intros [Hqt Hsz]. run_handlers. cbn [metrics issued fst snd].
destruct (execute_timeout_set env) as [[] | e1];
  [| destruct e1; simpl; intros _; (split; [reflexivity | lia])].
destruct (execute_tile_query env) as [[] | e2];
  [| destruct e2; simpl; intros _; (split; [reflexivity | lia])].
destruct (fetchall env) as [rows | e3];
  [| destruct e3; simpl; intros _; (split; [reflexivity | lia])].
destruct g; cbn [metrics issued fst snd]; [| simpl; discriminate].
pose proof (proj1 (sample_count_sum_aux (tile_querytime (metrics w))
                     (elapsed env))) as Hc1.
destruct (sample (tile_querytime (metrics w)) (elapsed env)) as [h1 o1].
cbn [fst] in Hc1.
destruct o1 as [[] | e1]; cbn [metrics issued fst snd].
- change (tile_size (set_tile_querytime h1 (metrics w)))
    with (tile_size (metrics w)).
  pose proof (sample_returns _ _ Hsz (len_nonneg (encode_tile rows)))
    as R2.
  destruct (sample (tile_size (metrics w)) (len (encode_tile rows)))
    as [h2 o2]. cbn [snd] in R2. subst o2. simpl. discriminate.
- destruct (is_psycopg2_Error e1); simpl; intros _;
    (split; [reflexivity | lia]).
Qed.

(** A failure of the store inside [gentile_async] reaches the caller as
    the exception the store raised. *)
Lemma gentile_async_store_failure (env : Env) (zoom x y : N) (g : bool)
    (w : World) (e : StoreExn) :
  query_raises env e ->
  snd (gentile_async env zoom x y g w) = Raise (exn_of_store e) /\
  metrics (fst (gentile_async env zoom x y g w)) = metrics w.
Proof.
intros Hfail. run_handlers. cbn [metrics issued fst snd].
destruct Hfail as [Hts | [[Hts Hq] | (Hts & Hq & Hf)]].
- rewrite Hts. destruct e; simpl; auto.
- rewrite Hts, Hq. destruct e; simpl; auto.
- rewrite Hts, Hq, Hf. destruct e; simpl; auto.
Qed.

(** Without a cancellation, whatever [gentile_async] raises is an
    [Exception]. *)
Lemma gentile_async_raises_Exception (env : Env) (zoom x y : N) (g : bool)
    (w : World) (e : PyExn) :
  no_cancellation env ->
  snd (gentile_async env zoom x y g w) = Raise e -> is_Exception e = true.
Proof.
intros (_ & _ & Hts & Hq & Hf). unfold not_cancelled in *.
run_handlers. cbn [metrics issued fst snd].
destruct (execute_timeout_set env) as [[] | e1];
  [| destruct e1; simpl; intros E; inversion E; try reflexivity;
     congruence].
destruct (execute_tile_query env) as [[] | e2];
  [| destruct e2; simpl; intros E; inversion E; try reflexivity;
     congruence].
destruct (fetchall env) as [rows | e3];
  [| destruct e3; simpl; intros E; inversion E; try reflexivity;
     congruence].
destruct g; cbn [metrics issued fst snd]; [| simpl; discriminate].
destruct (sample (tile_querytime (metrics w)) (elapsed env))
  as [h1 o1] eqn:S1.
destruct o1 as [[] | e1]; cbn [metrics issued fst snd].
- destruct (sample (tile_size (set_tile_querytime h1 (metrics w)))
              (len (encode_tile rows))) as [h2 o2] eqn:S2.
  destruct o2 as [[] | e2]; cbn [metrics issued fst snd];
    [simpl; discriminate |].
  assert (H2 : snd (sample (tile_size (set_tile_querytime h1 (metrics w)))
                      (len (encode_tile rows))) = Raise e2)
    by (rewrite S2; reflexivity).
  apply sample_raises in H2.
  destruct H2; subst e2; simpl; intros E; inversion E; reflexivity.
- assert (H1 : snd (sample (tile_querytime (metrics w)) (elapsed env))
               = Raise e1) by (rewrite S1; reflexivity).
  apply sample_raises in H1.
  destruct H1; subst e1; simpl; intros E; inversion E; reflexivity.
Qed.

(** X3: what the tile route can answer: 404 for an unsupported zoom on an
    obtained connection, 500, or 200 with the encoding of the rows the
    store returned for the query.  Nothing else, and the body of a 200 is
    never anything but the fetched rows. *)
Theorem tile_route_answers (env : Env) (request : Request) (w : World) :
  (connected env /\
   (exists zoom, py_int (req_zoom request) = Return zoom /\
                 zoom <> zoom_default) /\
   snd (serve_tile env request w) = Raise HTTPNotFound) \/
  snd (serve_tile env request w) = Raise HTTPInternalServerError \/
  (exists rows x y,
      connected env /\ supported_zoom request /\
      coordinates request x y /\ store_returns env rows /\
      snd (serve_tile env request w)
      = Return (mkResponse 200 (encode_tile rows) "application/json")).
Proof.
rewrite serve_tile_shape.
unfold connected, supported_zoom, coordinates, escaped.
destruct (pool_acquire env) as [[] | e]; [| destruct e; simpl; auto].
destruct (conn_cursor env) as [[] | e]; [| destruct e; simpl; auto].
destruct (py_int (req_zoom request)) as [zoom | ez] eqn:Hz;
  [| rewrite (py_int_raises _ _ Hz); simpl; auto].
destruct (N.eqb_spec zoom zoom_default) as [Hzoom | Hzoom];
  [| left; simpl; split; [auto |]; split; [exists zoom |]; auto].
subst zoom.
destruct (py_int (req_x request)) as [x | ex] eqn:Hx;
  [| rewrite (py_int_raises _ _ Hx); simpl; auto].
destruct (py_int (req_y request)) as [y | ey] eqn:Hy;
  [| rewrite (py_int_raises _ _ Hy); simpl; auto].
pose proof (gentile_async_return env zoom_default x y true w) as Hret.
pose proof (proj2 (gentile_async_outcome env zoom_default x y true w))
  as Ho.
destruct (gentile_async env zoom_default x y true w) as [w1 o].
cbn [fst snd] in Hret, Ho.
destruct o as [[| s] | e]; [contradiction | |].
- destruct (Hret (PyStr s) eq_refl) as (rows & Hrows & Hs & _).
  assert (Es : s = encode_tile rows) by congruence. subst s.
  right. right. exists rows, x, y. simpl. auto 8.
- simpl. rewrite Ho. auto.
Qed.

(** X4: every tile request that is not cancelled is counted exactly once:
    as served when it is answered 200, as an exception otherwise. *)
Theorem tile_request_counted_once (env : Env) (request : Request)
    (w : World) :
  no_cancellation env ->
  (response_status (snd (serve_tile env request w)) = 200 /\
   c_value (tile_served (metrics (fst (serve_tile env request w))))
   = c_value (tile_served (metrics w)) + 1 /\
   c_value (tile_exception (metrics (fst (serve_tile env request w))))
   = c_value (tile_exception (metrics w))) \/
  (response_status (snd (serve_tile env request w)) <> 200 /\
   c_value (tile_served (metrics (fst (serve_tile env request w))))
   = c_value (tile_served (metrics w)) /\
   c_value (tile_exception (metrics (fst (serve_tile env request w))))
   = c_value (tile_exception (metrics w)) + 1).
Proof.
intros Hnc. pose proof Hnc as (Hacq & Hcur & _).
unfold not_cancelled in Hacq, Hcur.
assert (Hesc : forall e w0,
           is_Exception e = true -> is_HTTPException e = false ->
           tile_served (metrics w0) = tile_served (metrics w) ->
           tile_exception (metrics w0) = tile_exception (metrics w) ->
           response_status (snd (escaped e w0)) <> 200 /\
           c_value (tile_served (metrics (fst (escaped e w0))))
           = c_value (tile_served (metrics w)) /\
           c_value (tile_exception (metrics (fst (escaped e w0))))
           = c_value (tile_exception (metrics w)) + 1).
{ intros e w0 He Hh Hs Hx. unfold escaped. rewrite He, Hh. simpl.
  rewrite Hs, Hx. split; [discriminate | split; reflexivity]. }
rewrite serve_tile_shape.
destruct (pool_acquire env) as [[] | e];
  [| right; apply Hesc; destruct e; try reflexivity; congruence].
destruct (conn_cursor env) as [[] | e];
  [| right; apply Hesc; destruct e; try reflexivity; congruence].
destruct (py_int (req_zoom request)) as [zoom | ez] eqn:Hz;
  [| right; rewrite (py_int_raises _ _ Hz); apply Hesc; reflexivity].
destruct (zoom =? zoom_default)%N;
  [| right; simpl; split; [discriminate | split; reflexivity]].
destruct (py_int (req_x request)) as [x | ex] eqn:Hx;
  [| right; rewrite (py_int_raises _ _ Hx); apply Hesc; reflexivity].
destruct (py_int (req_y request)) as [y | ey] eqn:Hy;
  [| right; rewrite (py_int_raises _ _ Hy); apply Hesc; reflexivity].
pose proof (gentile_async_raises_Exception env zoom x y true w) as Hexc.
destruct (gentile_async_outcome env zoom x y true w) as [Hc Ho].
destruct (gentile_async env zoom x y true w) as [w1 o].
cbn [fst snd] in Hexc, Hc, Ho. unfold counters in Hc.
assert (Hs : tile_served (metrics w1) = tile_served (metrics w))
  by congruence.
assert (He : tile_exception (metrics w1) = tile_exception (metrics w))
  by congruence.
destruct o as [[| s] | e]; [contradiction | |].
- left. simpl. rewrite Hs, He. auto.
- right. apply Hesc; auto.
Qed.

Lemma tile_request_counted_once_witness :
  no_cancellation env_query_fails /\
  response_status
    (snd (serve_tile env_query_fails request_16_100_200 world_0)) <> 200 /\
  c_value (tile_served
             (metrics (fst (serve_tile env_query_fails request_16_100_200
                              world_0))))
  = c_value (tile_served (metrics world_0)) /\
  c_value (tile_exception
             (metrics (fst (serve_tile env_query_fails request_16_100_200
                              world_0))))
  = c_value (tile_exception (metrics world_0)) + 1.
Proof.
assert (Hnc : no_cancellation env_query_fails)
  by (repeat split; discriminate).
split; [exact Hnc |].
destruct (tile_request_counted_once env_query_fails request_16_100_200
            world_0 Hnc) as [(H200 & _) | Hfail].
- vm_compute in H200. discriminate.
- exact Hfail.
Defined.

(** X5: a request cancelled while the query runs is answered 500, and no
    counter and no histogram records it: the cancellation is not an
    [Exception], so [tile_handler_pooling] lets it pass uncounted, and the
    bare [except] of [error_middleware] turns it into a 500. *)
Theorem cancelled_request_uncounted (env : Env) (request : Request)
    (w : World) (x y : N) :
  connected env -> supported_zoom request -> coordinates request x y ->
  query_raises env store_CancelledError ->
  snd (serve_tile env request w) = Raise HTTPInternalServerError /\
  metrics (fst (serve_tile env request w)) = metrics w.
Proof.
intros [Hacq Hcur] Hzoom [Hx Hy] Hfail.
rewrite serve_tile_shape, Hacq, Hcur, Hzoom.
change (zoom_default =? zoom_default)%N with true. cbv iota.
rewrite Hx, Hy.
destruct (gentile_async_store_failure env zoom_default x y true w _ Hfail)
  as [Ho Hm].
destruct (gentile_async env zoom_default x y true w) as [w1 o].
cbn [fst snd] in Ho, Hm. subst o. simpl. auto.
Qed.

Lemma cancelled_request_uncounted_witness :
  connected env_cancelled /\
  supported_zoom request_16_100_200 /\
  coordinates request_16_100_200 100 200 /\
  query_raises env_cancelled store_CancelledError /\
  snd (serve_tile env_cancelled request_16_100_200 world_0)
  = Raise HTTPInternalServerError /\
  metrics (fst (serve_tile env_cancelled request_16_100_200 world_0))
  = metrics world_0.
Proof.
assert (Hconn : connected env_cancelled) by (split; reflexivity).
assert (Hzoom : supported_zoom request_16_100_200) by reflexivity.
assert (Hxy : coordinates request_16_100_200 100 200)
  by (split; reflexivity).
assert (Hfail : query_raises env_cancelled store_CancelledError)
  by (right; left; split; reflexivity).
split; [exact Hconn |]. split; [exact Hzoom |]. split; [exact Hxy |].
split; [exact Hfail |].
exact (cancelled_request_uncounted env_cancelled request_16_100_200
         world_0 100 200 Hconn Hzoom Hxy Hfail).
Defined.
End TileRoute.

(* ################################################################## *)
(** * Invariants of the application over sequences of requests *)

Section Application.
Variable number_str : Q -> string.

Lemma metrics_le_refl (m : Metrics) : metrics_le m m.
Proof. unfold metrics_le, counters. repeat constructor; lia. Qed.

Lemma metrics_le_trans (m1 m2 m3 : Metrics) :
  metrics_le m1 m2 -> metrics_le m2 m3 -> metrics_le m1 m3.
Proof.
unfold metrics_le, counters. intros H12 H23.
repeat match goal with
       | H : Forall2 _ (_ :: _) (_ :: _) |- _ =>
           inversion H; subst; clear H
       | H : Forall2 _ [] [] |- _ => clear H
       end.
repeat constructor; intuition (try congruence; try lia).
Qed.

(** The alive and metrics routes touch one counter and nothing else. *)
Lemma handle_alive (env : Env) (w : World) :
  handle number_str env route_alive w
  = (mkWorld (inc_tilesrv_aliveprobe (metrics w)) (issued w),
     Return (mkResponse 200 "" "application/octet-stream")).
Proof. reflexivity. Qed.

Lemma handle_metrics_world (env : Env) (w : World) :
  fst (handle number_str env route_metrics w)
  = mkWorld (inc_tilesrv_metrics_scraped (metrics w)) (issued w).
Proof.
unfold handle, error_middleware, try_except, metrics_handler, bind,
  update_metrics. cbn [metrics issued fst snd].
destruct (metrics_to_string number_str _) as [text | e];
  [reflexivity |].
destruct (negb (is_HTTPException e)); reflexivity.
Qed.

(** The world a tile request leaves, in terms of the one [gentile_async]
    left. *)
Lemma serve_tile_world (env : Env) (request : Request) (w : World) :
  fst (serve_tile env request w) = w \/
  fst (serve_tile env request w) = exception_counted w \/
  (exists x y,
      let r := gentile_async env zoom_default x y true w in
      (exists s, snd r = Return (PyStr s) /\
                 fst (serve_tile env request w) = served_counted (fst r)) \/
      (exists e, snd r = Raise e /\
                 (fst (serve_tile env request w) = fst r \/
                  fst (serve_tile env request w)
                  = exception_counted (fst r)))).
Proof.
assert (Hesc : forall e,
           fst (escaped e w) = w \/ fst (escaped e w) = exception_counted w).
{ intros e. unfold escaped. destruct (is_Exception e); simpl; auto. }
rewrite serve_tile_shape.
destruct (pool_acquire env) as [[] | e];
  [| destruct (Hesc (exn_of_store e)); auto].
destruct (conn_cursor env) as [[] | e];
  [| destruct (Hesc (exn_of_store e)); auto].
destruct (py_int (req_zoom request)) as [zoom | ez];
  [| destruct (Hesc ez); auto].
destruct (N.eqb_spec zoom zoom_default) as [Hz | Hz];
  [| destruct (Hesc HTTPNotFound); auto].
subst zoom.
destruct (py_int (req_x request)) as [x | ex]; [| destruct (Hesc ex); auto].
destruct (py_int (req_y request)) as [y | ey]; [| destruct (Hesc ey); auto].
right. right. exists x, y. cbv zeta.
pose proof (proj2 (gentile_async_outcome env zoom_default x y true w))
  as Ho.
destruct (gentile_async env zoom_default x y true w) as [w1 o].
cbn [fst snd] in *.
destruct o as [[| s] | e]; [contradiction | |].
- left. exists s. auto.
- right. exists e. unfold escaped.
  destruct (is_Exception e); simpl; auto.
Qed.

Lemma metrics_le_counters (m m' : Metrics) :
  counters m' = counters m -> metrics_le m m'.
Proof. unfold metrics_le. intros E. rewrite E. apply metrics_le_refl. Qed.

Lemma metrics_le_inc_tile_exception (m : Metrics) :
  metrics_le m (inc_tile_exception m).
Proof. unfold metrics_le, counters. repeat constructor; simpl; lia. Qed.

Lemma metrics_le_inc_tile_served (m : Metrics) :
  metrics_le m (inc_tile_served m).
Proof. unfold metrics_le, counters. repeat constructor; simpl; lia. Qed.

(** One request never moves a counter back. *)
Lemma handle_metrics_le (env : Env) (route : Route) (w : World) :
  metrics_le (metrics w) (metrics (fst (handle number_str env route w))).
Proof.
destruct route as [request | |].
- change (handle number_str env (route_tile request) w)
    with (serve_tile env request w).
  destruct (serve_tile_world env request w)
    as [E | [E | (x & y & [(s & _ & E) | (e & _ & [E | E])])]];
    rewrite E; simpl;
    try (pose proof (proj1 (gentile_async_outcome env zoom_default x y
                              true w)) as Hc;
         apply metrics_le_counters in Hc).
  + apply metrics_le_refl.
  + apply metrics_le_inc_tile_exception.
  + eapply metrics_le_trans; [exact Hc |].
    apply metrics_le_inc_tile_served.
  + exact Hc.
  + eapply metrics_le_trans; [exact Hc |].
    apply metrics_le_inc_tile_exception.
- rewrite handle_alive. unfold metrics_le, counters.
  repeat constructor; simpl; lia.
- rewrite handle_metrics_world. unfold metrics_le, counters.
  repeat constructor; simpl; lia.
Qed.

(** X6: over any sequence of requests to the three routes, whatever the store
    answers, no counter is ever reset or decremented, and each keeps its
    name and help text. *)
Theorem counters_never_decrease (requests : list (Env * Route))
    (w : World) :
  metrics_le (metrics w) (metrics (serve_all number_str requests w)).
Proof.
revert w. induction requests as [| [env route] rest IH]; intros w; simpl.
- apply metrics_le_refl.
- eapply metrics_le_trans; [apply handle_metrics_le | apply IH].
Qed.

(** One request keeps the query protocol. *)
Lemma handle_protocol_ok (env : Env) (route : Route) (w : World) :
  protocol_ok (issued w) ->
  protocol_ok (issued (fst (handle number_str env route w))).
Proof.
intros Hok. destruct route as [request | |].
- change (handle number_str env (route_tile request) w)
    with (serve_tile env request w).
  assert (H1 : forall x y,
             protocol_ok
               (issued (fst (gentile_async env zoom_default x y true w)))).
  { intros x y.
    destruct (gentile_async_issued env zoom_default x y true w)
      as [E | E]; rewrite E; simpl; auto. }
  destruct (serve_tile_world env request w)
    as [E | [E | (x & y & [(s & _ & E) | (e & _ & [E | E])])]];
    rewrite E; simpl; auto; apply H1.
- rewrite handle_alive. exact Hok.
- rewrite handle_metrics_world. exact Hok.
Qed.

(** X7: over any sequence of requests, every tile query the store receives is
    for zoom 16 and comes right after the statement that sets the
    statement timeout; the alive and metrics routes send nothing. *)
Theorem query_protocol_kept (requests : list (Env * Route)) (w : World) :
  protocol_ok (issued w) ->
  protocol_ok (issued (serve_all number_str requests w)).
Proof.
revert w. induction requests as [| [env route] rest IH]; intros w Hok;
  simpl; [exact Hok |].
apply IH. apply handle_protocol_ok. exact Hok.
Qed.

(** One request keeps the metrics consistent. *)
Lemma handle_consistent (env : Env) (route : Route) (w : World) :
  metrics_consistent (metrics w) ->
  metrics_consistent (metrics (fst (handle number_str env route w))).
Proof.
intros (Hu & Hserved & Hcount). destruct route as [request | |].
- change (handle number_str env (route_tile request) w)
    with (serve_tile env request w).
  destruct (serve_tile_world env request w)
    as [E | [E | (x & y & Hxy)]].
  + rewrite E. split; [exact Hu | split; assumption].
  + rewrite E. split; [exact Hu | split; assumption].
  + cbv zeta in Hxy.
    pose proof (gentile_async_usable env zoom_default x y true w Hu)
      as Hu1.
    pose proof (proj1 (gentile_async_outcome env zoom_default x y true w))
      as Hc.
    assert (Hs1 : tile_served
                    (metrics (fst (gentile_async env zoom_default x y
                                     true w)))
                  = tile_served (metrics w))
      by (unfold counters in Hc; congruence).
    destruct Hxy as [(s & Hret & E) | (e & Hraise & HE)].
    * rewrite E.
      destruct (gentile_async_return _ _ _ _ _ _ _ Hret)
        as (rows & _ & _ & _ & Hh).
      destruct (Hh eq_refl) as [Hqt Hsz].
      split; [exact Hu1 |]. simpl. rewrite Hs1, Hsz, Hqt.
      rewrite (proj1 (sample_count_sum_aux _ _)),
        (proj1 (sample_count_sum_aux _ _)). lia.
    * destruct (gentile_async_raise _ _ _ _ _ _ _ Hu Hraise) as [Hsz Hqt].
      destruct HE as [E | E]; rewrite E; (split; [exact Hu1 |]); simpl;
        rewrite ?Hs1, Hsz; lia.
- rewrite handle_alive. split; [exact Hu | split; assumption].
- rewrite handle_metrics_world. split; [exact Hu | split; assumption].
Qed.

(** X8: over any sequence of requests: the histograms stay usable, the number
    of tile sizes sampled is the number of tiles served, and no size is
    sampled without a query time. *)
Theorem metrics_stay_consistent (requests : list (Env * Route))
    (w : World) :
  metrics_consistent (metrics w) ->
  metrics_consistent (metrics (serve_all number_str requests w)).
Proof.
revert w. induction requests as [| [env route] rest IH]; intros w Hok;
  simpl; [exact Hok |].
apply IH. apply handle_consistent. exact Hok.
Qed.
End Application.

Section ApplicationWitnesses.

Lemma query_protocol_kept_witness :
  protocol_ok (issued world_0) /\
  protocol_ok (issued (serve_all (fun q => int_repr (Qfloor q)) session
                         world_0)).
Proof.
assert (H0 : protocol_ok (issued world_0)) by exact I.
split; [exact H0 |].
exact (query_protocol_kept (fun q => int_repr (Qfloor q)) session world_0
         H0).
Defined.

Lemma metrics_stay_consistent_witness :
  metrics_consistent (metrics world_0) /\
  metrics_consistent
    (metrics (serve_all (fun q => int_repr (Qfloor q)) session world_0)).
Proof.
assert (H0 : metrics_consistent (metrics world_0)).
{ split; [exact metrics_0_usable |]. simpl. lia. }
split; [exact H0 |].
exact (metrics_stay_consistent (fun q => int_repr (Qfloor q)) session
         world_0 H0).
Defined.

Lemma sample_raises_only_without_buckets_witness :
  histogram_wf no_bucket_histogram /\
  (0 < h_interval no_bucket_histogram)%Q /\
  integer_histogram no_bucket_histogram /\ integer_sample 0%Q /\
  snd (sample no_bucket_histogram 0) = Raise IndexError /\
  h_count (fst (sample no_bucket_histogram 0))
  = h_count no_bucket_histogram + 1.
Proof.
assert (Hwf : histogram_wf no_bucket_histogram)
  by (apply StatHistogram_init_wf; lia).
assert (Hiv : (0 < h_interval no_bucket_histogram)%Q) by reflexivity.
assert (Hi : integer_histogram no_bucket_histogram)
  by (split; [exists 1; reflexivity | reflexivity]).
assert (Hv : integer_sample 0%Q) by (exists 0; split; [lia | reflexivity]).
split; [exact Hwf |]. split; [exact Hiv |]. split; [exact Hi |].
split; [exact Hv |].
exact (sample_raises_only_without_buckets no_bucket_histogram 0 Hwf Hiv
         Hi Hv).
Defined.
End ApplicationWitnesses.

(* ################################################################## *)
(** * The metrics route and the size of a tile *)

Section Scrape.
Variable number_str : Q -> string.

Lemma bucket_lines_returns (h : StatHistogram) (n first : nat) :
  (first + n <= List.length (h_buckets h))%nat ->
  exists lines, bucket_lines number_str h first n = Return lines.
Proof.
revert first. induction n as [| n IH]; intros first Hlen; simpl.
- eexists. reflexivity.
- destruct (nth_error (h_buckets h) first) as [count |] eqn:Hnth.
  + destruct (IH (S first)) as [rest Hrest]; [lia |].
    rewrite Hrest. eexists. reflexivity.
  + apply nth_error_None in Hnth. lia.
Qed.

Lemma StatHistogram_report_returns (h : StatHistogram) :
  histogram_wf h ->
  exists report, StatHistogram_report number_str h = Return report.
Proof.
intros (Hbc & Hlen & _). unfold StatHistogram_report.
destruct (bucket_lines_returns h (Z.to_nat (h_bucket_count h)) 0)
  as [lines Hlines]; [lia |].
rewrite Hlines. eexists. reflexivity.
Qed.

(** X9: a scrape counts itself: on histograms as [__init__] builds them, the
    metrics route answers 200 with a text that starts with the report of
    the scrape counter, already incremented for this request; the route
    changes nothing else and sends nothing to the store. *)
Theorem scrape_counts_itself (env : Env) (w : World) :
  histogram_wf (tile_querytime (metrics w)) ->
  histogram_wf (tile_size (metrics w)) ->
  exists rest,
    handle number_str env route_metrics w
    = (mkWorld (inc_tilesrv_metrics_scraped (metrics w)) (issued w),
       Return
         (mkResponse 200
            (StatCounter_report (inc (tilesrv_metrics_scraped (metrics w)))
             ++ rest)
            "text/plain")).
Proof.
intros Hqt Hsz.
destruct (StatHistogram_report_returns _ Hqt) as [rq Hrq].
destruct (StatHistogram_report_returns _ Hsz) as [rs Hrs].
unfold handle, error_middleware, try_except, metrics_handler, bind,
  update_metrics, metrics_to_string.
cbn [metrics issued fst snd inc_tilesrv_metrics_scraped tile_querytime
     tile_size tilesrv_metrics_scraped].
rewrite Hrq, Hrs. eexists. reflexivity.
Qed.
End Scrape.

Lemma scrape_counts_itself_witness :
  histogram_wf (tile_querytime (metrics world_0)) /\
  histogram_wf (tile_size (metrics world_0)) /\
  exists rest,
    snd (handle (fun q => int_repr (Qfloor q)) (env_rows []) route_metrics
           world_0)
    = Return
        (mkResponse 200
           (StatCounter_report
              (inc (tilesrv_metrics_scraped (metrics world_0))) ++ rest)
           "text/plain").
Proof.
assert (Hqt : histogram_wf (tile_querytime (metrics world_0)))
  by (apply StatHistogram_init_wf; lia).
assert (Hsz : histogram_wf (tile_size (metrics world_0)))
  by (apply StatHistogram_init_wf; lia).
split; [exact Hqt |]. split; [exact Hsz |].
destruct (scrape_counts_itself (fun q => int_repr (Qfloor q)) (env_rows [])
            world_0 Hqt Hsz) as [rest Hrest].
exists rest. rewrite Hrest. reflexivity.
Defined.

Section TileSize.

Lemma string_length_append (a b : string) :
  String.length (a ++ b) = (String.length a + String.length b)%nat.
Proof. induction a as [| c a IH]; simpl; [reflexivity | rewrite IH; lia]. Qed.

(** The tile text around the encoded rows. *)
Lemma encode_tile_frame (rows : list Row) :
  encode_tile rows
  = (("{" ++ dquote ++ "features" ++ dquote ++ ": [") ++
     ((String.concat ", " (map json_dumps (map asdict rows)) ++ "]") ++
      ", " ++ dquote ++ "type" ++ dquote ++ ": " ++ dquote ++
      "FeatureCollection" ++ dquote) ++ "}")%string.
Proof. reflexivity. Qed.

Lemma features_text_empty (rows : list Row) :
  String.length (String.concat ", " (map json_dumps (map asdict rows)))
  = 0%nat -> rows = [].
Proof.
destruct rows as [| r rows]; [reflexivity |].
intros Hlen. exfalso. revert Hlen. cbn [map String.concat].
change (asdict r) with (JDict r).
assert (Hr : (1 <= String.length (json_dumps (JDict r)))%nat)
  by (cbn [json_dumps]; simpl; lia).
destruct (map json_dumps (map asdict rows));
  [| rewrite string_length_append]; lia.
Qed.

Lemma tile_length_bound (rows : list Row) :
  (45 <= String.length (encode_tile rows))%nat /\
  (String.length (encode_tile rows) = 45%nat -> rows = []).
Proof.
rewrite encode_tile_frame.
rewrite !string_length_append.
set (n := String.length
            (String.concat ", " (map json_dumps (map asdict rows)))).
pose proof (features_text_empty rows) as Hempty. fold n in Hempty.
clearbody n. cbn [String.length dquote].
split; [lia |]. intros Hlen. apply Hempty. lia.
Qed.

(** X10: no tile is shorter than the empty collection: a tile text has at least
    45 characters, and exactly 45 only when the store returned no row. *)
Theorem tile_at_least_45_characters (rows : list Row) :
  (45 <= String.length (encode_tile rows))%nat /\
  (String.length (encode_tile rows) = 45%nat <-> rows = []).
Proof.
destruct (tile_length_bound rows) as [Hmin Hempty].
split; [exact Hmin |]. split; [exact Hempty |].
intros E. subst rows. reflexivity.
Qed.

(** X11: a served tile is filed by its size: with usable histograms, the
    [tile_size] bucket whose bounds enclose the length of the served text
    goes up by one and the other buckets stay, so the wrap of a zero
    sample to the last bucket never happens for tile sizes. *)
Theorem served_tile_filed_by_size (env : Env) (request : Request)
    (w : World) (rows : list Row) (x y : N) (i : Z) :
  connected env -> supported_zoom request -> coordinates request x y ->
  store_returns env rows -> metrics_usable (metrics w) ->
  (0 <= elapsed env)%Q ->
  0 <= i < h_bucket_count (tile_size (metrics w)) ->
  (in_bucket (h_interval (tile_size (metrics w))) i
     (len (encode_tile rows)) ->
   bucket (tile_size (metrics (fst (serve_tile env request w)))) i
   = bucket (tile_size (metrics w)) i + 1) /\
  (~ in_bucket (h_interval (tile_size (metrics w))) i
       (len (encode_tile rows)) ->
   bucket (tile_size (metrics (fst (serve_tile env request w)))) i
   = bucket (tile_size (metrics w)) i).
Proof.
intros [Hacq Hcur] Hzoom [Hx Hy] Hrows Hu Hel Hi.
destruct (gentile_async_returns env zoom_default x y true w rows Hrows
            (fun _ => conj Hu Hel)) as (w1 & Hg & _).
assert (Hsz : tile_size (metrics (fst (serve_tile env request w)))
              = fst (sample (tile_size (metrics w))
                       (len (encode_tile rows)))).
{ destruct (gentile_async_return env zoom_default x y true w
              (PyStr (encode_tile rows)))
    as (rows' & _ & Hs & _ & Hh); [rewrite Hg; reflexivity |].
  assert (Hs' : encode_tile rows = encode_tile rows') by congruence.
  rewrite <- Hs' in Hh.
  destruct (Hh eq_refl) as [_ Hsize].
  rewrite serve_tile_shape, Hacq, Hcur, Hzoom.
  change (zoom_default =? zoom_default)%N with true. cbv iota.
  rewrite Hx, Hy. rewrite Hg in *. exact Hsize. }
rewrite Hsz.
destruct Hu as [_ (Hwf & Hiv & _)].
assert (Hpos : (0 < len (encode_tile rows))%Q).
{ unfold len. change 0%Q with (inject_Z 0). rewrite <- Zlt_Qlt.
  pose proof (proj1 (tile_length_bound rows)). lia. }
destruct (sample_positive_buckets (tile_size (metrics w))
            (len (encode_tile rows)) Hwf Hiv Hpos)
  as (_ & Hhit & Hmiss & _).
split; [apply Hhit | apply Hmiss]; exact Hi.
Qed.
End TileSize.

(* ################################################################## *)
(** * Tile names *)

Section TileNames.
Local Open Scope string_scope.

Lemma string_of_uint_numeric (d : Decimal.uint) :
  numeric (NilEmpty.string_of_uint d).
Proof.
induction d; simpl; auto; (split; [split; discriminate | assumption]).
Qed.

Lemma int_repr_numeric (z : Z) : numeric (int_repr z).
Proof.
unfold int_repr, NilZero.string_of_int, NilZero.string_of_uint.
destruct (Z.to_int z) as [d | d].
- destruct d; try apply (string_of_uint_numeric (_ _));
    simpl; repeat split; discriminate.
- simpl. split; [split; discriminate |].
  destruct d; try apply (string_of_uint_numeric (_ _));
    simpl; repeat split; discriminate.
Qed.

Lemma int_repr_inj (z z' : Z) : int_repr z = int_repr z' -> z = z'.
Proof.
unfold int_repr. intros E.
assert (Hnn : forall n, Z.to_int n <> Decimal.Pos Decimal.Nil /\
                        Z.to_int n <> Decimal.Neg Decimal.Nil).
{ intros [| p | p]; simpl; split; try discriminate;
    intros [= Hp]; exact (DecimalPos.Unsigned.to_uint_nonnil p Hp). }
pose proof (NilZero.isi (Z.to_int z) (proj1 (Hnn z)) (proj2 (Hnn z)))
  as Hz.
pose proof (NilZero.isi (Z.to_int z') (proj1 (Hnn z')) (proj2 (Hnn z')))
  as Hz'.
rewrite E, Hz' in Hz. injection Hz as Hz.
rewrite <- (DecimalZ.of_to z), <- (DecimalZ.of_to z'). congruence.
Qed.

(** A text is cut in one way only at the first separator. *)
Lemma split_at_separator (sep : ascii) (s1 s2 t1 t2 : string) :
  (sep = "/"%char \/ sep = "."%char) -> numeric s1 -> numeric s2 ->
  s1 ++ String sep t1 = s2 ++ String sep t2 -> s1 = s2 /\ t1 = t2.
Proof.
intros Hsep. revert s2.
induction s1 as [| c s1 IH]; intros [| c' s2] H1 H2 E; simpl in *.
- inversion E. auto.
- inversion E; subst c'. destruct H2 as [[Hs Hd] _].
  destruct Hsep; congruence.
- inversion E; subst c. destruct H1 as [[Hs Hd] _].
  destruct Hsep; congruence.
- inversion E; subst c'.
  destruct (IH s2 (proj2 H1) (proj2 H2)) as [Es Et]; [assumption |].
  subst. auto.
Qed.

(** X15: tile names identify tiles: two tiles with the same name have the same
    zoom, column and row. *)
Theorem tile_name_inj (zoom x y zoom' x' y' : Z) :
  tile_name zoom x y = tile_name zoom' x' y' ->
  zoom = zoom' /\ x = x' /\ y = y'.
Proof.
unfold tile_name. intros E.
apply split_at_separator in E;
  [| left; reflexivity | apply int_repr_numeric | apply int_repr_numeric].
destruct E as [Ez E].
apply split_at_separator in E;
  [| left; reflexivity | apply int_repr_numeric | apply int_repr_numeric].
destruct E as [Ex E].
change ".json" with (String "."%char "json") in E.
apply split_at_separator in E;
  [| right; reflexivity | apply int_repr_numeric | apply int_repr_numeric].
destruct E as [Ey _].
repeat split; apply int_repr_inj; assumption.
Qed.

Lemma tile_name_inj_witness :
  tile_name 16 100 200 = tile_name 16 100 200 /\
  (16 = 16 /\ 100 = 100 /\ 200 = 200).
Proof.
assert (E : tile_name 16 100 200 = tile_name 16 100 200) by reflexivity.
split; [exact E |]. exact (tile_name_inj 16 100 200 16 100 200 E).
Defined.
End TileNames.

(* ################################################################## *)
(** * When the store is contacted, and the shape of a bounding box *)

Section StoreContact.

(** X12: the store is sent a statement exactly when the connection and
    its cursor were obtained, [int] converts the zoom to 16 and converts
    both coordinates: otherwise the statement log is left as it was. *)
Theorem store_contacted_iff (env : Env) (request : Request) (w : World) :
  issued (fst (serve_tile env request w)) <> issued w <->
  (connected env /\ supported_zoom request /\
   exists x y, coordinates request x y).
Proof.
assert (Hneq : forall (a : Statement) l l',
           l' = a :: l \/ (exists b, l' = b :: a :: l) -> l' <> l).
{ intros a l l' [E | [b E]] E'; rewrite E' in E;
    apply (f_equal (@List.length Statement)) in E; simpl in E; lia. }
assert (Hesc : forall e, issued (fst (escaped e w)) = issued w).
{ intros e. unfold escaped. destruct (is_Exception e); reflexivity. }
rewrite serve_tile_shape. unfold connected, supported_zoom, coordinates.
destruct (pool_acquire env) as [[] | e].
2:{ rewrite Hesc. split; [congruence | intros [[E _] _]; discriminate]. }
destruct (conn_cursor env) as [[] | e].
2:{ rewrite Hesc. split; [congruence | intros [[_ E] _]; discriminate]. }
destruct (py_int (req_zoom request)) as [zoom | ez].
2:{ rewrite Hesc. split; [congruence | intros (_ & E & _); discriminate]. }
destruct (N.eqb_spec zoom zoom_default) as [Hz | Hz].
2:{ rewrite Hesc. split; [congruence | intros (_ & E & _); congruence]. }
subst zoom.
destruct (py_int (req_x request)) as [x | ex].
2:{ rewrite Hesc.
    split; [congruence | intros (_ & _ & x & y & E & _); discriminate]. }
destruct (py_int (req_y request)) as [y | ey].
2:{ rewrite Hesc.
    split; [congruence | intros (_ & _ & x' & y & _ & E); discriminate]. }
split; [intros _; split; [auto |]; split; [auto |]; exists x, y; auto |].
intros _.
pose proof (gentile_async_issued env zoom_default x y true w) as Hi.
destruct (gentile_async env zoom_default x y true w) as [w1 o].
cbn [fst] in Hi.
assert (Hw1 : issued w1 <> issued w).
{ apply (Hneq timeout_set). destruct Hi as [E | E]; [left | right; eexists];
    exact E. }
destruct o as [[| s] | e]; unfold escaped; simpl; try exact Hw1;
  destruct (is_Exception _); exact Hw1.
Qed.

Lemma served_tile_filed_by_size_witness :
  connected (env_rows []) /\
  supported_zoom request_16_100_200 /\
  coordinates request_16_100_200 100 200 /\
  store_returns (env_rows []) [] /\ metrics_usable (metrics world_0) /\
  (0 <= elapsed (env_rows []))%Q /\
  0 <= 0 < h_bucket_count (tile_size (metrics world_0)) /\
  in_bucket (h_interval (tile_size (metrics world_0))) 0
    (len (encode_tile [])) /\
  bucket (tile_size
            (metrics (fst (serve_tile (env_rows []) request_16_100_200
                             world_0)))) 0
  = bucket (tile_size (metrics world_0)) 0 + 1.
Proof.
assert (Hconn : connected (env_rows [])) by (split; reflexivity).
assert (Hzoom : supported_zoom request_16_100_200) by reflexivity.
assert (Hxy : coordinates request_16_100_200 100 200)
  by (split; reflexivity).
assert (Hrows : store_returns (env_rows []) [])
  by (repeat split; reflexivity).
assert (Hu : metrics_usable (metrics world_0)) by exact metrics_0_usable.
assert (Hel : (0 <= elapsed (env_rows []))%Q)
  by (unfold Qle; simpl; lia).
assert (Hi : 0 <= 0 < h_bucket_count (tile_size (metrics world_0)))
  by (simpl; lia).
assert (Hin : in_bucket (h_interval (tile_size (metrics world_0))) 0
                (len (encode_tile [])))
  by (split; reflexivity || (unfold Qle; simpl; lia)).
split; [exact Hconn |]. split; [exact Hzoom |]. split; [exact Hxy |].
split; [exact Hrows |]. split; [exact Hu |]. split; [exact Hel |].
split; [exact Hi |]. split; [exact Hin |].
exact (proj1 (served_tile_filed_by_size (env_rows []) request_16_100_200
                world_0 [] 100 200 0 Hconn Hzoom Hxy Hrows Hu Hel Hi) Hin).
Defined.
End StoreContact.

Section BoundingBox.
Context `{Binary64}.

(** X13: the tile box of two corners: it is returned exactly when both corners
    project (the first corner's error comes first), it contains the tiles
    of both corners, and each of its four bounds is the coordinate of one
    of them. *)
Theorem tile_bbox_encloses_corners (zoom : Z)
    (latA lonA latB lonB : float) :
  match osm_deg2num latA lonA zoom, osm_deg2num latB lonB zoom with
  | Raise e, _ =>
      tile_bbox_from_coords zoom (latA, lonA, latB, lonB) = Raise e
  | Return _, Raise e =>
      tile_bbox_from_coords zoom (latA, lonA, latB, lonB) = Raise e
  | Return (ax, ay), Return (bx, b_y) =>
      exists minx miny maxx maxy,
        tile_bbox_from_coords zoom (latA, lonA, latB, lonB)
        = Return (minx, miny, maxx, maxy) /\
        minx <= ax <= maxx /\ minx <= bx <= maxx /\
        miny <= ay <= maxy /\ miny <= b_y <= maxy /\
        (minx = ax \/ minx = bx) /\ (maxx = ax \/ maxx = bx) /\
        (miny = ay \/ miny = b_y) /\ (maxy = ay \/ maxy = b_y)
  end.
Proof.
unfold tile_bbox_from_coords.
destruct (osm_deg2num latA lonA zoom) as [[ax ay] | ea];
  destruct (osm_deg2num latB lonB zoom) as [[bx b_y] | eb]; simpl;
  try reflexivity.
do 4 eexists. split; [reflexivity |]. lia.
Qed.

(** X14: the tile column depends on the longitude and the zoom only, the tile
    row on the latitude and the zoom only. *)
Theorem tile_column_and_row_independent (zoom : Z)
    (lat lat' lon lon' : float) :
  match osm_deg2num lat lon zoom, osm_deg2num lat' lon zoom with
  | Return (x, _), Return (x', _) => x = x'
  | _, _ => True
  end /\
  match osm_deg2num lat lon zoom, osm_deg2num lat lon' zoom with
  | Return (_, y), Return (_, y') => y = y'
  | _, _ => True
  end.
Proof.
unfold osm_deg2num. split;
  repeat match goal with
         | |- context [and_then ?o _] =>
             match o with
             | and_then _ _ => fail 1
             | _ => destruct o; cbn [and_then]
             end
         end; auto.
Qed.
End BoundingBox.

(* ################################################################## *)
(** * The round trip in binary64 *)

Section RoundTrip.

(** C7, at the equator and the longitude [-3.1915283203125004], zoom 16:
    [(lon + 180.0) / 360.0 * n] rounds up to [32187.0], so the point is
    put in column 32187, whose north-west corner [num2deg] places at
    longitude [-3.1915283203125], east of the point; the south-east
    corner lies further east still.  The point is outside the longitudes
    of its tile. *)
Theorem round_trip_west_of_tile (m : Libm) :
  libm_exact_at_origin m ->
  @osm_deg2num (binary64 m) (float_of_Z 0) lon_west_of_32187 16
  = Return (32187, 32768) /\
  @num2deg (binary64 m) (float_of_Z 32187) (float_of_Z 32768) 16
  = Return (float_of_Z 0, west_edge_32187) /\
  PrimFloat.ltb lon_west_of_32187 west_edge_32187 = true /\
  (forall lat_se lon_se,
      @num2deg (binary64 m) (float_of_Z 32188) (float_of_Z 32769) 16
      = Return (lat_se, lon_se) ->
      PrimFloat.ltb west_edge_32187 lon_se = true).
Proof.
intros (Htan & Hcos & Hlog & Hsinh & Hatan).
split; [| split; [| split]].
- unfold osm_deg2num. cbn [binary64 fpow fdiv fadd fsub fmul float_of_int
    math_radians math_tan math_cos math_log math_pi int_of_float].
  change (float_pow (float_of_Z 2) 16) with (Return (float_of_Z 65536)).
  cbn [and_then].
  change (float_div (PrimFloat.add lon_west_of_32187 (float_of_Z 180))
            (float_of_Z 360))
    with (Return (PrimFloat.div
                    (PrimFloat.add lon_west_of_32187 (float_of_Z 180))
                    (float_of_Z 360))).
  cbn [and_then].
  change (float_to_int
            (PrimFloat.mul
               (PrimFloat.div
                  (PrimFloat.add lon_west_of_32187 (float_of_Z 180))
                  (float_of_Z 360)) (float_of_Z 65536)))
    with (@Return Z 32187).
  cbn [and_then].
  change (PrimFloat.mul (float_of_Z 0)
            (PrimFloat.div float_pi (float_of_Z 180)))
    with (float_of_Z 0).
  rewrite Htan, Hcos. cbn [and_then].
  change (float_div (float_of_Z 1) (float_of_Z 1))
    with (Return (float_of_Z 1)).
  cbn [and_then].
  change (PrimFloat.add (float_of_Z 0) (float_of_Z 1)) with (float_of_Z 1).
  rewrite Hlog. cbn [and_then].
  vm_compute. reflexivity.
- unfold num2deg. cbn [binary64 fpow fdiv fadd fsub fmul float_of_int
    math_degrees math_atan math_sinh math_pi].
  change (float_pow (float_of_Z 2) 16) with (Return (float_of_Z 65536)).
  cbn [and_then].
  change (float_div (float_of_Z 32187) (float_of_Z 65536))
    with (Return (PrimFloat.div (float_of_Z 32187) (float_of_Z 65536))).
  cbn [and_then].
  change (float_div (PrimFloat.mul (float_of_Z 2) (float_of_Z 32768))
            (float_of_Z 65536)) with (Return (float_of_Z 1)).
  cbn [and_then].
  change (PrimFloat.mul float_pi
            (PrimFloat.sub (float_of_Z 1) (float_of_Z 1)))
    with (float_of_Z 0).
  rewrite Hsinh. cbn [and_then]. rewrite Hatan.
  vm_compute. reflexivity.
- vm_compute. reflexivity.
- intros lat_se lon_se. unfold num2deg.
  cbn [binary64 fpow fdiv fadd fsub fmul float_of_int math_degrees
       math_atan math_sinh math_pi].
  change (float_pow (float_of_Z 2) 16) with (Return (float_of_Z 65536)).
  cbn [and_then].
  change (float_div (float_of_Z 32188) (float_of_Z 65536))
    with (Return (PrimFloat.div (float_of_Z 32188) (float_of_Z 65536))).
  cbn [and_then].
  change (float_div (PrimFloat.mul (float_of_Z 2) (float_of_Z 32769))
            (float_of_Z 65536))
    with (Return (PrimFloat.div
                    (PrimFloat.mul (float_of_Z 2) (float_of_Z 32769))
                    (float_of_Z 65536))).
  cbn [and_then].
  clear Htan Hcos Hlog Hsinh Hatan.
  match goal with
  | |- context [and_then ?o _] => destruct o as [s | e]
  end; cbn [and_then]; [| discriminate].
  intros E. inversion E as [[Elat Elon]]. vm_compute. reflexivity.
Qed.

Lemma round_trip_west_of_tile_witness :
  libm_exact_at_origin libm_first_order /\
  @osm_deg2num (binary64 libm_first_order) (float_of_Z 0)
    lon_west_of_32187 16 = Return (32187, 32768) /\
  PrimFloat.ltb lon_west_of_32187 west_edge_32187 = true.
Proof.
assert (Hm : libm_exact_at_origin libm_first_order)
  by (repeat split; vm_compute; reflexivity).
split; [exact Hm |].
destruct (round_trip_west_of_tile libm_first_order Hm)
  as (Htile & _ & Hwest & _).
split; [exact Htile | exact Hwest].
Defined.
End RoundTrip.
